(** * A shallow embedding of [bigml/fusion.py]

    The local [Fusion] predictor combines the outputs of several supervised
    member models.  This development embeds the functions of
    [bigml/fusion.py] as Rocq functions and states the properties of the
    natural-language specification about them.

    Conventions of the embedding:
    - Python numbers (the [int] weights and the [float] probabilities) are
      exact rationals [Q]; arithmetic is exact, and a division by zero raises
      [ZeroDivisionError] as it does in Python.
    - A computation that may raise is a value of [Result]; [try]/[except]
      is [try_except].
    - Python dictionaries with free-form keys are [gmap string _];
      dictionaries with a fixed set of keys are records.
    - A list attribute that may be [None] is an [option (list _)]. *)

From Stdlib Require Import QArith Qround Lqa.
From stdpp Require Import base option list sorting strings gmap.

Local Open Scope Q_scope.

(** ** Exceptions and results *)

Inductive exn :=
  | ValueError
  | KeyError
  | IndexError
  | TypeError
  | AttributeError
  | ZeroDivisionError.

#[global] Instance exn_eq_dec : EqDecision exn.
Proof. solve_decision. Defined.

Inductive Result (A : Type) :=
  | Ok (a : A)
  | Raise (e : exn).
Arguments Ok {A} a.
Arguments Raise {A} e.

#[global] Instance Result_ret : MRet Result := fun A a => Ok a.
#[global] Instance Result_bind : MBind Result := fun A B f m =>
  match m with
  | Ok a => f a
  | Raise e => Raise e
  end.
#[global] Instance Result_fmap : FMap Result := fun A B f m =>
  match m with
  | Ok a => Ok (f a)
  | Raise e => Raise e
  end.

(** [try: body except E: handler], where [catches e] tells whether the
    [except] clause matches the exception [e]. *)
Definition try_except {A} (body : Result A) (catches : exn -> bool)
    (handler : Result A) : Result A :=
  match body with
  | Ok a => Ok a
  | Raise e => if catches e then handler else Raise e
  end.

Definition is_exn (e0 : exn) : exn -> bool := fun e => bool_decide (e = e0).
(** [except Exception] matches every exception of the model. *)
Definition any_exception : exn -> bool := fun _ => true.

Definition is_Ok {A} (r : Result A) : Prop := exists a, r = Ok a.
Definition is_Raise {A} (r : Result A) : Prop := exists e, r = Raise e.

(** ** Python values and list primitives *)

#[warnings="-register-all"]
Inductive pyval :=
  | VStr (s : string)
  | VNum (q : Q)
  | VDict (d : gmap string pyval).

(** [l.index(x)]: the first position of [x], [ValueError] when absent. *)
Fixpoint index_from `{EqDecision A} (x : A) (l : list A) (i : nat) : option nat :=
  match l with
  | [] => None
  | y :: l' => if decide (y = x) then Some i else index_from x l' (S i)
  end.

Definition py_index `{EqDecision A} (x : A) (l : list A) : Result nat :=
  match index_from x l 0 with
  | Some i => Ok i
  | None => Raise ValueError
  end.

(** [l[i]] for a non-negative index: [IndexError] out of range. *)
Definition py_getitem {A} (l : list A) (i : nat) : Result A :=
  match l !! i with
  | Some a => Ok a
  | None => Raise IndexError
  end.

(** [v[key]] for a string key: [KeyError] on a dictionary without the key,
    [TypeError] on a value that is not a dictionary. *)
Definition py_subscript (v : pyval) (key : string) : Result pyval :=
  match v with
  | VDict d =>
      match d !! key with
      | Some x => Ok x
      | None => Raise KeyError
      end
  | _ => Raise TypeError
  end.

(** [x / y] on numbers. *)
Definition py_div (x y : Q) : Result Q :=
  if Qeq_bool y 0 then Raise ZeroDivisionError else Ok (x / y).

(** [sum(l)] and the accumulation loops [acc = 0; for v in l: acc += v]. *)
Definition py_sum (l : list Q) : Q := fold_left Qplus l 0.

(** [round(x, ndigits)]: the nearest multiple of [10^-ndigits], a tie going
    to the even multiple. *)
Definition round_half_even (x : Q) : Z :=
  let f := Qfloor x in
  match Qcompare (x - inject_Z f) (1 # 2) with
  | Lt => f
  | Gt => (f + 1)%Z
  | Eq => if Z.even f then f else (f + 1)%Z
  end.

Definition py_round (x : Q) (ndigits : Z) : Q :=
  Qred (inject_Z (round_half_even (x * Qpower 10 ndigits)) / Qpower 10 ndigits).

(** ** [rearrange_prediction] *)

(** The body of the loop: position of the class in the origin classes and the
    value found there; the [except ValueError] clause gives [0.0]. *)
Definition rearrange_class (origin_classes : option (list string))
    (prediction : list Q) (class_name : string) : Result Q :=
  try_except
    (match origin_classes with
     | None => Raise AttributeError
     | Some origin =>
         origin_index ← py_index class_name origin;
         py_getitem prediction origin_index
     end)
    (is_exn ValueError)
    (Ok 0).

Definition rearrange_prediction (origin_classes destination_classes : option (list string))
    (prediction : list Q) : Result (list Q) :=
  match destination_classes with
  | None => Raise TypeError
  | Some destination => mapM (rearrange_class origin_classes prediction) destination
  end.

(** ** [get_models_weight] *)

Definition is_dict (v : pyval) : bool :=
  match v with
  | VDict _ => true
  | _ => false
  end.

Definition get_models_weight (models_info : list pyval)
    : Result (list pyval * list pyval) :=
  try_except
    (model_info ← py_getitem models_info 0;
     '(model_ids, weights) ←
       (if is_dict model_info then
          model_ids ← try_except
                        (mapM (fun model => py_subscript model "id") models_info)
                        (is_exn KeyError)
                        (Raise ValueError);
          weights ← try_except
                      (Some <$> mapM (fun model => py_subscript model "weight") models_info)
                      (is_exn KeyError)
                      (Ok None);
          Ok (model_ids, weights)
        else Ok (models_info, None));
     let weights := match weights with
                    | Some ws => ws
                    | None => replicate (length model_ids) (VNum 1)
                    end in
     Ok (model_ids, weights))
    (is_exn KeyError)
    (Raise ValueError).

(** ** Batches: [range] and slices *)

(** [range(start, stop, step)] for a positive step; [fuel] bounds the number
    of elements. *)
Fixpoint range_up (fuel : nat) (start stop step : Z) : list Z :=
  match fuel with
  | O => []
  | S fuel' =>
      if (start <? stop)%Z
      then start :: range_up fuel' (start + step) stop step
      else []
  end.

Fixpoint range_down (fuel : nat) (start stop step : Z) : list Z :=
  match fuel with
  | O => []
  | S fuel' =>
      if (stop <? start)%Z
      then start :: range_down fuel' (start + step) stop step
      else []
  end.

Definition py_range (start stop step : Z) : Result (list Z) :=
  if (step =? 0)%Z then Raise ValueError
  else if (0 <? step)%Z
       then Ok (range_up (Z.to_nat (stop - start)) start stop step)
       else Ok (range_down (Z.to_nat (start - stop)) start stop step).

(** [l[i:j]]: negative bounds count from the end, and both bounds are
    clipped to the list. *)
Definition slice_bound (len k : Z) : Z :=
  if (k <? 0)%Z then Z.max 0 (k + len) else Z.min k len.

Definition py_slice {A} (l : list A) (i j : Z) : list A :=
  let len := Z.of_nat (length l) in
  let lo := slice_bound len i in
  let hi := slice_bound len j in
  take (Z.to_nat (hi - lo)) (drop (Z.to_nat lo) l).

(** The [models_splits] attribute computed by [Fusion.__init__]. *)
Definition make_models_splits {A} (model_ids : list A) (max_models : option Z)
    : Result (list (list A)) :=
  match max_models with
  | None => Ok [model_ids]
  | Some max_models =>
      let number_of_models := Z.of_nat (length model_ids) in
      indexes ← py_range 0 number_of_models max_models;
      Ok (map (fun index => py_slice model_ids index (index + max_models)) indexes)
  end.

(** [sorted] is a stable sort: an element [y] moves in front of an element
    [x] that came before it only when [y < x].  [lt y x] is that test. *)
Fixpoint insert_by {A} (lt : A -> A -> bool) (x : A) (l : list A) : list A :=
  match l with
  | [] => [x]
  | y :: l' => if lt y x then y :: insert_by lt x l' else x :: l
  end.

Definition sort_by {A} (lt : A -> A -> bool) (l : list A) : list A :=
  foldr (insert_by lt) [] l.

(** [sorted(l)] on strings (code-point order). *)
Definition sorted_strings (l : list string) : list string :=
  sort_by String.ltb l.

(** [x < y] on numbers. *)
Definition Qltb (x y : Q) : bool := negb (Qle_bool y x).

(** [sorted(l, key=key)]: ascending in the key. *)
Definition sorted_by_key {A} (key : A -> Q) (l : list A) : list A :=
  sort_by (fun y x => Qltb (key y) (key x)) l.

(** [l.sort(key=cmp_to_key(cmp))]: stable; the key of [y] is below the key
    of [x] when [cmp(y, x) < 0].  The comparison may raise. *)
Fixpoint insert_by_cmp {A} (cmp : A -> A -> Result Z) (x : A) (l : list A)
    : Result (list A) :=
  match l with
  | [] => Ok [x]
  | y :: l' =>
      c ← cmp y x;
      if (c <? 0)%Z
      then (rest ← insert_by_cmp cmp x l'; Ok (y :: rest))
      else Ok (x :: l)
  end.

Fixpoint sort_by_cmp {A} (cmp : A -> A -> Result Z) (l : list A) : Result (list A) :=
  match l with
  | [] => Ok []
  | x :: l' => sorted ← sort_by_cmp cmp l'; insert_by_cmp cmp x sorted
  end.

(** A left-to-right loop with an accumulator whose body may raise. *)
Fixpoint foldlM {A B} (f : A -> B -> Result A) (acc : A) (l : list B) : Result A :=
  match l with
  | [] => Ok acc
  | x :: l' => acc' ← f acc x; foldlM f acc' l'
  end.

(** ** Members and the fusion object *)

Inductive missing_strategy :=
  | LAST_PREDICTION
  | PROPORTIONAL.

Definition input_data := gmap string pyval.

(** One [{"category": _, "confidence": _}] record. *)
Record category_confidence := CategoryConfidence {
  cc_category : string;
  cc_confidence : Q }.

(** What [predict_confidence] returns: the list of per-category records
    (classification, [compact=False]), the dictionary with the keys
    ["prediction"] and ["confidence"] (regression, [compact=False]) or a
    list of numbers ([compact=True]). *)
Inductive confidence_output :=
  | ConfidenceList (l : list category_confidence)
  | ConfidenceDict (prediction confidence : Q)
  | ConfidenceCompact (l : list Q).

(** The capability a member offers to the fusion: [SupervisedModel] or a
    nested [Fusion].  [m_predict_probability] is the call with
    [compact=True], [m_predict_confidence] the call with [compact=False];
    the optional argument is the [missing_strategy] keyword. *)
Record Member := {
  m_resource_id : string;
  m_class_names : option (list string);
  m_predict_probability : input_data -> option missing_strategy -> Result (list Q);
  m_predict_confidence : input_data -> option missing_strategy -> Result confidence_output }.

Record Api := { storage : option string }.

(** The attributes of a [Fusion] that the prediction methods read.  [api] is
    [None] when the object has no such attribute. *)
Record Fusion := {
  resource_id : string;
  model_ids : list string;
  weights : list Q;
  models_splits : list (list string);
  objective_categories : option (list string);
  class_names : option (list string);
  regression : bool;
  missing_numerics : bool;
  model_fields : gmap string pyval;
  operation_settings : option (gmap string pyval);
  api : option Api }.

(** A prediction of a member, or a vote: a number or a list of numbers. *)
Inductive vote :=
  | Scalar (x : Q)
  | Vector (l : list Q).

(** One [{"category": _, "probability": _}] record, with the
    ["confidence"] key that [_predict] may add. *)
Record category_probability := CategoryProbability {
  cp_category : string;
  cp_probability : Q;
  cp_confidence : option Q }.

Inductive probability_output :=
  | ProbabilityCompact (l : list Q)
  | ProbabilityList (l : list category_probability)
  | PredictionDict (prediction : Q).

(** The dictionary returned by [_predict] and [predict_operating]. *)
Record full_prediction := FullPrediction {
  fp_prediction : pyval;
  fp_probability : option Q;
  fp_confidence : option Q;
  fp_unused_fields : option (list string) }.

Definition OPERATING_POINT_KINDS : list string := ["probability"].
Definition LOCAL_SUPERVISED : list string :=
  ["model"; "ensemble"; "logisticregression"; "deepnet"; "linearregression"; "fusion"].

(** The sum of two votes, component by component, along the first one;
    used by [combine_to_distribution] below. *)
Definition vector_add (acc v : list Q) : list Q :=
  imap (fun i a => match v !! i with Some b => a + b | None => a end) acc.

Definition as_vector (v : vote) : Result (list Q) :=
  match v with
  | Vector l => Ok l
  | Scalar _ => Raise TypeError
  end.

Definition summed_votes (vectors : list (list Q)) : list Q :=
  match vectors with
  | [] => []
  | first :: rest => fold_left vector_add rest first
  end.

(** Modelled from the spec: [MultiVoteList.combine_to_distribution] (module
    [bigml.multivotelist]) is not among the sources.  Section 4.3 of the
    specification: "Accumulate all weighted (and reprojected) vectors.
    Classification: normalize the summed vector so components sum to 1
    (standard weighted-vote distribution combination)".  The votes are
    summed component by component and every component of the sum is divided
    by the total of the sum. *)
Definition combine_to_distribution (votes : list vote) : Result (list Q) :=
  vectors ← mapM as_vector votes;
  let summed := summed_votes vectors in
  let total := py_sum summed in
  mapM (fun value => py_div value total) summed.

(** The position of a category in the categories of the objective field; a
    category that is not listed comes after the listed ones. *)
Definition category_rank (categories_list : list string) (c : string) : nat :=
  match index_from c categories_list 0 with
  | Some i => i
  | None => length categories_list
  end.

(** Modelled from the spec: [sort_categories] (module [bigml.model]) is not
    among the sources.  Section 4.4 of the specification, tie-break rule:
    "if equal, break ties using the objective field's original (unsorted)
    category order".  The result is negative when the category of [a] comes
    first in [categories_list], positive when the category of [b] does. *)
Definition sort_categories (a b : category_probability) (categories_list : list string) : Z :=
  match Nat.compare (category_rank categories_list (cp_category a))
                    (category_rank categories_list (cp_category b)) with
  | Lt => (-1)%Z
  | Eq => 0%Z
  | Gt => 1%Z
  end.

(** Modelled from the spec: [parse_operating_point] (module [bigml.model])
    is not among the sources.  Section 6 of the specification gives the
    shape of an operating point, [{"positive_class": str, "threshold":
    number in [0,1], "kind": "probability"}], and section 7 makes a
    malformed operating point a fatal error: the three values are returned
    when the dictionary has that shape, with a kind among the allowed
    ones. *)
Definition parse_operating_point (operating_point : gmap string pyval)
    (operating_kinds : list string) (classes : option (list string))
    (settings : option (gmap string pyval)) : Result (string * Q * string) :=
  match operating_point !! "kind", operating_point !! "threshold",
        operating_point !! "positive_class" with
  | Some (VStr kind), Some (VNum threshold), Some (VStr positive_class) =>
      if bool_decide (kind ∈ operating_kinds)
         && Qle_bool 0 threshold && Qle_bool threshold 1
      then Ok (kind, threshold, positive_class)
      else Raise ValueError
  | _, _, _ => Raise ValueError
  end.

(** ** The methods of [Fusion] *)

(** Collaborators of the module that are defined elsewhere in the package:
    the type of a resource id, the two constructors of members
    ([SupervisedModel(model, api=...)] and the [Fusion(model, api=...)] of a
    nested fusion), the missing-numerics check, the number of decimals of a
    confidence, and the input filter and the type cast of [ModelFields]. *)
Class Collaborators := {
  get_resource_type : string -> string;
  SupervisedModel : string -> Api -> Result Member;
  NestedFusion : string -> Api -> Result Member;
  check_no_missing_numerics : input_data -> gmap string pyval -> Result unit;
  DECIMALS : Z;
  filter_input_data : Fusion -> input_data -> bool -> input_data * list string;
  cast : input_data -> input_data }.

Section FusionMethods.
Context `{Collaborators}.

(** [self.api] *)
Definition self_api (self : Fusion) : Result Api :=
  match api self with
  | Some connection => Ok connection
  | None => Raise AttributeError
  end.

(** [list_models] *)
Definition list_models (self : Fusion) : list string := model_ids self.

(** The check of the member types in [__init__]: every id is the id of a
    supervised model. *)
Definition check_model_types (ids : list string) : Result unit :=
  _ ← mapM (fun model =>
              if bool_decide (get_resource_type model ∈ LOCAL_SUPERVISED)
              then Ok ()
              else Raise ValueError) ids;
  Ok ().

(** The first inner loop: one object per id of the batch. *)
Definition instantiate (self : Fusion) (model : string) : Result Member :=
  let model_type := get_resource_type model in
  connection ← self_api self;
  if bool_decide (model_type = "fusion")
  then NestedFusion model connection
  else SupervisedModel model connection.

(** The keyword arguments of the member call.  [model_type] is the variable
    left by the first inner loop: the type of the last id of the batch. *)
Definition member_kwargs (models_split : list string)
    (strategy : missing_strategy) : option missing_strategy :=
  match last models_split with
  | Some model =>
      if bool_decide (get_resource_type model ∈ ["model"; "ensemble"; "fusion"])
      then Some strategy
      else None
  | None => None
  end.

(** [self.weights[self.model_ids.index(model_id)]] *)
Definition member_weight (self : Fusion) (model_id : string) : Result Q :=
  position ← py_index model_id (model_ids self);
  py_getitem (weights self) position.

(** [weigh] *)
Definition weigh (self : Fusion) (prediction : vote) (model_id : string) : Result vote :=
  match prediction with
  | Vector l =>
      Vector <$> mapM (fun probability =>
                         weight ← member_weight self model_id;
                         Ok (probability * weight)) l
  | Scalar x =>
      weight ← member_weight self model_id;
      Ok (Scalar (x * weight))
  end.

(** The body of the second inner loop of [predict_probability]: [None] when
    the member is skipped, the weight and the vote otherwise. *)
Definition probability_vote (self : Fusion) (input : input_data)
    (kwargs : option missing_strategy) (model : Member) : Result (option (Q * vote)) :=
  match m_predict_probability model input kwargs with
  | Raise e => if is_exn ValueError e then Ok None else Raise e
  | Ok prediction =>
      prediction ← (if regression self
                    then Scalar <$> py_getitem prediction 0
                    else Ok (Vector prediction));
      weight ← member_weight self (m_resource_id model);
      prediction ← weigh self prediction (m_resource_id model);
      prediction ←
        (if negb (regression self)
            && negb (bool_decide (class_names self = m_class_names model))
         then
           match prediction with
           | Vector l =>
               try_except
                 (Vector <$> rearrange_prediction (m_class_names model) (class_names self) l)
                 (is_exn AttributeError)
                 (Ok prediction)
           | Scalar _ => Raise TypeError
           end
         else Ok prediction);
      Ok (Some (weight, prediction))
  end.

(** The second inner loop: the weights and the votes of the members that
    are not skipped, in order. *)
Definition member_votes (self : Fusion) (input : input_data)
    (kwargs : option missing_strategy) (models : list Member)
    : Result (list (Q * vote)) :=
  contributions ← mapM (probability_vote self input kwargs) models;
  Ok (omap id contributions).

(** One iteration of the loop over [models_splits]. *)
Definition split_votes (self : Fusion) (input : input_data)
    (strategy : missing_strategy) (models_split : list string)
    : Result (list (Q * vote)) :=
  models ← mapM (instantiate self) models_split;
  member_votes self input (member_kwargs models_split strategy) models.

(** The loop over [models_splits]: the votes and the parallel weights. *)
Definition collect_votes (self : Fusion) (input : input_data)
    (strategy : missing_strategy) : Result (list vote * list Q) :=
  per_split ← mapM (split_votes self input strategy) (models_splits self);
  let contributions := concat per_split in
  Ok (contributions.*2, contributions.*1).

Definition add_vote (prediction : Q) (pred : vote) : Result Q :=
  match pred with
  | Scalar x => Ok (prediction + x)
  | Vector _ => Raise TypeError
  end.

Definition iter_class_names (self : Fusion) : Result (list string) :=
  match class_names self with
  | Some names => Ok names
  | None => Raise TypeError
  end.

Definition predict_probability (self : Fusion) (input : input_data)
    (strategy : missing_strategy) (compact : bool) : Result probability_output :=
  _ ← (if missing_numerics self then Ok ()
       else check_no_missing_numerics input (model_fields self));
  '(votes, contributing) ← collect_votes self input strategy;
  if regression self then
    let total_weight := py_sum contributing in
    prediction ← foldlM add_vote 0 votes;
    let prediction := if Qltb 0 total_weight
                      then prediction / total_weight
                      else prediction in
    Ok (if compact then ProbabilityCompact [prediction] else PredictionDict prediction)
  else
    output ← combine_to_distribution votes;
    if compact then Ok (ProbabilityCompact output)
    else
      names ← iter_class_names self;
      Ok (ProbabilityList
            (zip_with (fun class_name p => CategoryProbability class_name p None)
                      names output)).

(** The body of the second inner loop of [predict_confidence]. *)
Definition confidence_vote (self : Fusion) (input : input_data)
    (kwargs : option missing_strategy) (model : Member)
    : Result (option (confidence_output * Q)) :=
  match try_except (Some <$> m_predict_confidence model input kwargs)
                   any_exception (Ok None) with
  | Raise e => Raise e
  | Ok None => Ok None
  | Ok (Some prediction) =>
      weight ← member_weight self (m_resource_id model);
      _ ← (if regression self
           then match prediction with
                | ConfidenceDict _ _ => Ok ()
                | _ => Raise TypeError
                end
           else Ok ());
      Ok (Some (prediction, weight))
  end.

Definition member_confidences (self : Fusion) (input : input_data)
    (kwargs : option missing_strategy) (models : list Member)
    : Result (list (confidence_output * Q)) :=
  contributions ← mapM (confidence_vote self input kwargs) models;
  Ok (omap id contributions).

Definition split_confidences (self : Fusion) (input : input_data)
    (strategy : missing_strategy) (models_split : list string)
    : Result (list (confidence_output * Q)) :=
  models ← mapM (instantiate self) models_split;
  member_confidences self input (member_kwargs models_split strategy) models.

Definition collect_confidences (self : Fusion) (input : input_data)
    (strategy : missing_strategy) : Result (list confidence_output * list Q) :=
  per_split ← mapM (split_confidences self input strategy) (models_splits self);
  let contributions := concat per_split in
  Ok (contributions.*1, contributions.*2).

(** The two inner loops of [_combine_confidences]: the confidence that one
    member gives to [class_name], if it lists the class. *)
Definition class_confidence (class_name : string) (prediction : confidence_output)
    : Result (option Q) :=
  match prediction with
  | ConfidenceList l =>
      Ok (cc_confidence <$>
            find (fun category_info => bool_decide (cc_category category_info = class_name)) l)
  | ConfidenceDict _ _ => Raise TypeError
  | ConfidenceCompact [] => Ok None
  | ConfidenceCompact (_ :: _) => Raise TypeError
  end.

Definition add_class_confidence (class_name : string) (confidence : Q)
    (prediction : confidence_output) : Result Q :=
  found ← class_confidence class_name prediction;
  Ok (match found with
      | Some c => confidence + c
      | None => confidence
      end).

Definition _combine_confidences (self : Fusion) (predictions : list confidence_output)
    : Result (list Q) :=
  let count := inject_Z (Z.of_nat (length predictions)) in
  names ← iter_class_names self;
  mapM (fun class_name =>
          confidence ← foldlM (add_class_confidence class_name) 0 predictions;
          mean ← py_div confidence count;
          Ok (py_round mean DECIMALS))
       names.

Definition regression_terms (pred : confidence_output) : Result (Q * Q) :=
  match pred with
  | ConfidenceDict p c => Ok (p, c)
  | _ => Raise AttributeError
  end.

Definition predict_confidence (self : Fusion) (input : input_data)
    (strategy : missing_strategy) (compact : bool) : Result confidence_output :=
  _ ← (if missing_numerics self then Ok ()
       else check_no_missing_numerics input (model_fields self));
  '(predictions, contributing) ← collect_confidences self input strategy;
  if regression self then
    let total_weight := py_sum contributing in
    '(prediction, confidence) ←
      foldlM (fun '(prediction, confidence) '(pred, weight) =>
                '(p, c) ← regression_terms pred;
                Ok (prediction + p * weight, confidence + c))
             (0, 0) (zip predictions contributing);
    let '(prediction, confidence) :=
      if Qltb 0 total_weight
      then (prediction / total_weight,
            confidence / inject_Z (Z.of_nat (length predictions)))
      else (prediction, confidence) in
    Ok (if compact then ConfidenceCompact [prediction; confidence]
        else ConfidenceDict prediction confidence)
  else
    output ← _combine_confidences self predictions;
    if compact then Ok (ConfidenceCompact output)
    else
      names ← iter_class_names self;
      Ok (ConfidenceList (zip_with CategoryConfidence names output)).

(** [entry[criteria]] on a [{"category": _, "probability": _}] record: only
    the numeric keys can be compared with a number. *)
Definition entry_metric (entry : category_probability) (criteria : string) : Result Q :=
  if bool_decide (criteria = "probability") then Ok (cp_probability entry)
  else if bool_decide (criteria = "confidence") then
         match cp_confidence entry with
         | Some c => Ok c
         | None => Raise KeyError
         end
  else if bool_decide (criteria = "category") then Raise TypeError
  else Raise KeyError.

Definition iter_objective_categories (self : Fusion) : Result (list string) :=
  match objective_categories self with
  | Some categories => Ok categories
  | None => Raise AttributeError
  end.

Definition _sort_predictions (self : Fusion) (a b : category_probability)
    (criteria : string) : Result Z :=
  metric_a ← entry_metric a criteria;
  metric_b ← entry_metric b criteria;
  if Qeq_bool metric_a metric_b then
    categories ← iter_objective_categories self;
    Ok (sort_categories a b categories)
  else Ok (if Qltb metric_a metric_b then 1 else -1)%Z.

(** [prediction["prediction"] = prediction["category"]; del prediction["category"]] *)
Definition rename_category (entry : category_probability) : full_prediction :=
  FullPrediction (VStr (cp_category entry)) (Some (cp_probability entry))
                 (cp_confidence entry) None.

(** The operating point in force: the argument, or else the one of
    [operation_settings]. *)
Definition default_operating_point (self : Fusion) (operating_point : option pyval)
    : option pyval :=
  match operating_point, operation_settings self with
  | None, Some settings => settings !! "operating_point"
  | _, _ => operating_point
  end.

Definition predict_operating (self : Fusion) (input : input_data)
    (strategy : missing_strategy) (operating_point : option pyval)
    : Result full_prediction :=
  let operating_point := default_operating_point self operating_point in
  operating_point ← match operating_point with
                    | Some (VDict d) => Ok (<["kind" := VStr "probability"]> d)
                    | _ => Raise AttributeError
                    end;
  '(kind, threshold, positive_class) ←
    parse_operating_point operating_point OPERATING_POINT_KINDS
                          (class_names self) (operation_settings self);
  predictions ← predict_probability self input strategy false;
  names ← match class_names self with
          | Some names => Ok names
          | None => Raise AttributeError
          end;
  position ← py_index positive_class names;
  predictions ← match predictions with
                 | ProbabilityList l => Ok l
                 | PredictionDict _ => Raise KeyError
                 | ProbabilityCompact _ => Raise TypeError
                 end;
  entry ← py_getitem predictions position;
  metric ← entry_metric entry kind;
  if Qltb threshold metric then Ok (rename_category entry)
  else
    sorted ← sort_by_cmp (fun a b => _sort_predictions self a b kind) predictions;
    let prediction := take 2 sorted in
    first ← py_getitem prediction 0;
    if bool_decide (cp_category first = positive_class)
    then rename_category <$> py_getitem prediction 1
    else Ok (rename_category first).

(** The loop of [_predict] that copies the confidences into the records.  It
    runs inside [try ... except Exception: pass]: the records updated before
    a failure keep their confidence. *)
Fixpoint merge_confidences (result : list category_probability)
    (confidence_result : list category_confidence) : list category_probability :=
  match result, confidence_result with
  | entry :: result', info :: confidence_result' =>
      CategoryProbability (cp_category entry) (cp_probability entry)
                          (Some (cc_confidence info))
      :: merge_confidences result' confidence_result'
  | _, _ => result
  end.

(** Truth value of an optional operating point. *)
Definition truthy (v : option pyval) : bool :=
  match v with
  | None => false
  | Some (VDict d) => negb (bool_decide (d = ∅))
  | Some (VStr s) => negb (bool_decide (s = EmptyString))
  | Some (VNum q) => negb (Qeq_bool q 0)
  end.

Definition add_unused_fields (unused_fields : list string) (result : full_prediction)
    : full_prediction :=
  match unused_fields with
  | [] => result
  | _ :: _ => FullPrediction (fp_prediction result) (fp_probability result)
                             (fp_confidence result) (Some unused_fields)
  end.

Definition _predict (self : Fusion) (input : input_data) (strategy : missing_strategy)
    (operating_point : option pyval) (unused_fields : list string)
    : Result full_prediction :=
  let operating_point := default_operating_point self operating_point in
  if truthy operating_point then
    if regression self then Raise ValueError
    else predict_operating self input strategy operating_point
  else
    result ← predict_probability self input strategy false;
    confidence_result ← predict_confidence self input strategy false;
    result ←
      (if negb (regression self) then
         match result with
         | ProbabilityList entries =>
             let entries := match confidence_result with
                            | ConfidenceList infos => merge_confidences entries infos
                            | _ => entries
                            end in
             rename_category <$>
               py_getitem (sorted_by_key (fun x => - cp_probability x) entries) 0
         | _ => Raise TypeError
         end
       else
         match result, confidence_result with
         | PredictionDict p, ConfidenceDict _ c =>
             Ok (FullPrediction (VNum p) None (Some c) None)
         | _, _ => Raise TypeError
         end);
    Ok (add_unused_fields unused_fields result).

(** What [predict] returns: the dictionary without its [None] values when
    [full] is set, the value of its ["prediction"] key otherwise. *)
Inductive predict_output :=
  | FullResult (result : full_prediction)
  | PredictionValue (value : pyval).

Definition predict (self : Fusion) (input : input_data) (strategy : missing_strategy)
    (operating_point : option pyval) (full : bool) : Result predict_output :=
  let '(input, unused) := filter_input_data self input full in
  let unused_fields := if full then unused else [] in
  _ ← (if missing_numerics self then Ok ()
       else check_no_missing_numerics input (model_fields self));
  let input := cast input in
  full_prediction ← _predict self input strategy operating_point unused_fields;
  Ok (if full then FullResult full_prediction
      else PredictionValue (fp_prediction full_prediction)).

End FusionMethods.

(** ** The attribute dictionary of an object: [vars], [dump] and [dumps] *)

(** Objects and dictionaries live in a store.  [dict_of] gives the address
    of the attribute dictionary ([__dict__]) of an object, [dicts] the
    contents of the dictionaries.  The attribute dictionary of a [Fusion]
    has the keys of the record [Fusion]; deleting the key ["api"] leaves
    [api] at [None]. *)
Record Store := {
  dict_of : gmap positive positive;
  dicts : gmap positive Fusion }.

(** [vars(obj)]: the attribute dictionary itself, not a copy. *)
Definition vars (st : Store) (obj : positive) : Result positive :=
  match dict_of st !! obj with
  | Some address => Ok address
  | None => Raise TypeError
  end.

(** The attributes of an object, read through its dictionary. *)
Definition attributes (st : Store) (obj : positive) : option Fusion :=
  address ← dict_of st !! obj; dicts st !! address.

Definition without_api (d : Fusion) : Fusion :=
  {| resource_id := resource_id d;
     model_ids := model_ids d;
     weights := weights d;
     models_splits := models_splits d;
     objective_categories := objective_categories d;
     class_names := class_names d;
     regression := regression d;
     missing_numerics := missing_numerics d;
     model_fields := model_fields d;
     operation_settings := operation_settings d;
     api := None |}.

(** [del d["api"]] on the dictionary at [address]: the store is updated in
    place; [KeyError] when the key is absent. *)
Definition del_api (st : Store) (address : positive) : Store * Result unit :=
  match dicts st !! address with
  | Some d =>
      match api d with
      | Some _ =>
          ({| dict_of := dict_of st;
              dicts := <[address := without_api d]> (dicts st) |}, Ok ())
      | None => (st, Raise KeyError)
      end
  | None => (st, Raise KeyError)
  end.

Section Serialization.

(** The serializers [dump] and [dumps] of [bigml.util]: they read the
    dictionary that they are given. *)
Variable Output : Type.
Variable util_dump : Fusion -> option Output -> option Output -> Result unit.
Variable util_dumps : Fusion -> Result string.

Definition serialize {A} (st : Store) (address : positive)
    (serializer : Fusion -> Result A) : Result A :=
  match dicts st !! address with
  | Some d => serializer d
  | None => Raise KeyError
  end.

(** [Fusion.dump] *)
Definition Fusion_dump (st : Store) (self : positive)
    (output cache_set : option Output) : Store * Result unit :=
  match vars st self with
  | Raise e => (st, Raise e)
  | Ok self_vars =>
      match del_api st self_vars with
      | (st', Raise e) => (st', Raise e)
      | (st', Ok _) =>
          (st', serialize st' self_vars (fun d => util_dump d output cache_set))
      end
  end.

(** [Fusion.dumps]; the string computed by the serializer is not returned. *)
Definition Fusion_dumps (st : Store) (self : positive) : Store * Result unit :=
  match vars st self with
  | Raise e => (st, Raise e)
  | Ok self_vars =>
      match del_api st self_vars with
      | (st', Raise e) => (st', Raise e)
      | (st', Ok _) =>
          (st', _ ← serialize st' self_vars util_dumps; Ok ())
      end
  end.

End Serialization.

(** A method call on an object of the store: the method reads the attributes
    that the object has at the time of the call. *)
Definition call_method {A} (st : Store) (self : positive)
    (method : Fusion -> Result A) : Result A :=
  match attributes st self with
  | Some d => method d
  | None => Raise AttributeError
  end.

(** ** The constructor: objective field and cached state *)

(** The summary of the objective field; a key that the summary does not
    have is [None].  The entries are the pairs of the field distribution. *)
Record field_summary := {
  bins : option (list (Q * Q));
  counts : option (list (Q * Q));
  categories : option (list (string * Q)) }.

(** The [distribution] attribute: the list taken from the summary, the
    empty list when the summary has none of the three keys. *)
Inductive distribution_info :=
  | BinsDistribution (l : list (Q * Q))
  | CountsDistribution (l : list (Q * Q))
  | CategoriesDistribution (l : list (string * Q))
  | NoDistribution.

(** The attributes that the end of [__init__] computes from the objective
    field.  [__init__] starts with [class_names = None] and without the
    attribute [objective_categories]. *)
Record objective_attributes := {
  oa_distribution : distribution_info;
  oa_objective_categories : option (list string);
  oa_class_names : option (list string);
  oa_regression : bool }.

(** The end of [__init__], from [summary = ...] on.  [NUMERIC] is the
    constant of [bigml.util]; [optype] is [None] when the field has no
    ["optype"]. *)
Definition init_objective (NUMERIC : string) (summary : field_summary)
    (optype : option string) : objective_attributes :=
  let regression := bool_decide (optype = Some NUMERIC) in
  match bins summary, counts summary, categories summary with
  | Some l, _, _ => Build_objective_attributes (BinsDistribution l) None None regression
  | None, Some l, _ =>
      Build_objective_attributes (CountsDistribution l) None None regression
  | None, None, Some l =>
      let raw := l.*1 in
      Build_objective_attributes (CategoriesDistribution l) (Some raw)
                                 (Some (sorted_strings raw)) regression
  | None, None, None => Build_objective_attributes NoDistribution None None regression
  end.


(** ** Predicates used in the statements *)

(** The entry is a dictionary that has the key. *)
Definition has_key (key : string) (v : pyval) : Prop :=
  match v with
  | VDict d => is_Some (d !! key)
  | _ => False
  end.

#[global] Instance has_key_dec key v : Decision (has_key key v).
Proof. destruct v; cbn; apply _. Defined.

Definition is_record (v : pyval) : Prop := is_dict v = true.
Definition is_identifier (v : pyval) : Prop := exists s, v = VStr s.

(** The batches that [make_models_splits] cuts from position [start] on. *)
Definition batches_from {A} (l : list A) (m : Z) (fuel : nat) (start : Z)
    : list (list A) :=
  map (fun index => py_slice l index (index + m))
      (range_up fuel start (Z.of_nat (length l)) m).

(** The fusion-level check of missing numerics lets the input through. *)
Definition check_passes `{Collaborators} (self : Fusion) (input : input_data) : Prop :=
  missing_numerics self = true
  \/ check_no_missing_numerics input (model_fields self) = Ok ().

(** The members that the fusion instantiates, batch by batch; every batch
    comes with the keyword arguments of its member calls. *)
Definition loaded `{Collaborators} (self : Fusion) (strategy : missing_strategy)
    (batches : list (option missing_strategy * list Member)) : Prop :=
  Forall2 (fun models_split batch =>
             batch.1 = member_kwargs models_split strategy
             /\ mapM (instantiate self) models_split = Ok batch.2)
          (models_splits self) batches.

(** The members of all the batches, in order. *)
Definition members_of (batches : list (option missing_strategy * list Member))
    : list (option missing_strategy * Member) :=
  batches ≫= (fun batch => pair batch.1 <$> batch.2).

(** The member loop of [predict_probability] and of [predict_confidence],
    run over a list of members. *)
Definition flat_votes (self : Fusion) (input : input_data)
    (members : list (option missing_strategy * Member)) : Result (list (Q * vote)) :=
  contributions ← mapM (fun km => probability_vote self input km.1 km.2) members;
  Ok (omap id contributions).

Definition flat_confidences (self : Fusion) (input : input_data)
    (members : list (option missing_strategy * Member))
    : Result (list (confidence_output * Q)) :=
  contributions ← mapM (fun km => confidence_vote self input km.1 km.2) members;
  Ok (omap id contributions).

(** The call of the member fails with a [ValueError]; the call fails. *)
Definition raises_ValueError {A} (r : Result A) : bool :=
  match r with
  | Raise e => is_exn ValueError e
  | Ok _ => false
  end.

Definition raises {A} (r : Result A) : bool :=
  match r with
  | Raise _ => true
  | Ok _ => false
  end.

(** What a member of a regression fusion does on the input: it is skipped
    ([None]) or it contributes its first output [x] with the weight [w]
    found at the first position of its id in [model_ids]. *)
Definition scalar_outcome (self : Fusion) (input : input_data)
    (km : option missing_strategy * Member) (outcome : option (Q * Q)) : Prop :=
  match outcome with
  | None => m_predict_probability km.2 input km.1 = Raise ValueError
  | Some (w, x) =>
      (exists rest, m_predict_probability km.2 input km.1 = Ok (x :: rest))
      /\ exists i, index_from (m_resource_id km.2) (model_ids self) 0 = Some i
                   /\ weights self !! i = Some w
  end.


(** The weight and the vote of a member of a regression fusion that
    contributes [(w, x)]. *)
Definition weighted (contribution : Q * Q) : Q * vote :=
  (contribution.1, Scalar (contribution.2 * contribution.1)).

(** Two computations end alike: with related values or with the same
    exception. *)
Definition Result_rel {A B} (R : A -> B -> Prop) (r1 : Result A) (r2 : Result B) : Prop :=
  match r1, r2 with
  | Ok a, Ok b => R a b
  | Raise e1, Raise e2 => e1 = e2
  | _, _ => False
  end.





(** The vote is a list of numbers. *)
Definition is_vector (v : vote) : Prop := exists l, v = Vector l.

(** ** Predicates and views used by the further properties *)

(** The same fusion with other batches. *)
Definition with_splits (self : Fusion) (splits : list (list string)) : Fusion :=
  {| resource_id := resource_id self;
     model_ids := model_ids self;
     weights := weights self;
     models_splits := splits;
     objective_categories := objective_categories self;
     class_names := class_names self;
     regression := regression self;
     missing_numerics := missing_numerics self;
     model_fields := model_fields self;
     operation_settings := operation_settings self;
     api := api self |}.

(** The type of the id is one of those that get the [missing_strategy]
    keyword. *)
Definition takes_strategy `{Collaborators} (model : string) : bool :=
  bool_decide (get_resource_type model ∈ ["model"; "ensemble"; "fusion"]).




(** ** Concrete data for the examples *)

Definition five_members : list string :=
  ["model/1"; "model/2"; "model/3"; "model/4"; "model/5"].

Definition record_entry (id : string) (weight : Q) : pyval :=
  VDict {[ "id" := VStr id; "weight" := VNum weight ]}.

Definition id_only_entry (id : string) : pyval :=
  VDict {[ "id" := VStr id ]}.

Definition weight_only_entry (weight : Q) : pyval :=
  VDict {[ "weight" := VNum weight ]}.

(** The type of a resource id: the text before the first slash. *)
Definition resource_prefix (s : string) : string :=
  match String.index 0 "/" s with
  | Some n => String.substring 0 n s
  | None => s
  end.

(** A member that answers the same for every input. *)
Definition constant_member (id : string) (classes : option (list string))
    (probabilities : Result (list Q)) (confidences : Result confidence_output) : Member :=
  {| m_resource_id := id;
     m_class_names := classes;
     m_predict_probability := fun _ _ => probabilities;
     m_predict_confidence := fun _ _ => confidences |}.

(** Members are looked up by id in a table. *)
Definition load_from (table : list Member) (model : string) (connection : Api)
    : Result Member :=
  match find (fun m => bool_decide (m_resource_id m = model)) table with
  | Some m => Ok m
  | None => Raise ValueError
  end.

Definition table_collaborators (table : list Member) : Collaborators :=
  {| get_resource_type := resource_prefix;
     SupervisedModel := load_from table;
     NestedFusion := load_from table;
     check_no_missing_numerics := fun _ _ => Ok ();
     DECIMALS := 5;
     filter_input_data := fun _ input _ => (input, []);
     cast := fun input => input |}.

Definition local_connection : Api := {| storage := Some "./storage" |}.

(** The categories of the objective field as the field summary lists them,
    and the class names that [__init__] derives from them. *)
Definition iris_categories : list string :=
  ["Iris-virginica"; "Iris-versicolor"; "Iris-setosa"].
Definition iris_classes : list string := sorted_strings iris_categories.

(** A classification fusion over the iris classes, one batch. *)
Definition iris_fusion (ids : list string) (ws : list Q) : Fusion :=
  {| resource_id := "fusion/1";
     model_ids := ids;
     weights := ws;
     models_splits := [ids];
     objective_categories := Some iris_categories;
     class_names := Some iris_classes;
     regression := false;
     missing_numerics := true;
     model_fields := ∅;
     operation_settings := None;
     api := Some local_connection |}.

(** A regression fusion, one batch. *)
Definition numeric_fusion (ids : list string) (ws : list Q) : Fusion :=
  {| resource_id := "fusion/2";
     model_ids := ids;
     weights := ws;
     models_splits := [ids];
     objective_categories := None;
     class_names := None;
     regression := true;
     missing_numerics := true;
     model_fields := ∅;
     operation_settings := None;
     api := Some local_connection |}.

Definition no_input : input_data := ∅.

(** A tree model over the three classes. *)
Definition tree_member : Member :=
  constant_member "model/1" (Some iris_classes)
    (Ok [1 # 5; 2 # 5; 2 # 5])
    (Ok (ConfidenceList [CategoryConfidence "Iris-setosa" (1 # 10);
                         CategoryConfidence "Iris-versicolor" (3 # 10);
                         CategoryConfidence "Iris-virginica" (3 # 10)])).

(** A model trained on two of the three classes. *)
Definition two_class_member : Member :=
  constant_member "model/2" (Some ["Iris-setosa"; "Iris-virginica"])
    (Ok [3 # 4; 1 # 4])
    (Ok (ConfidenceList [CategoryConfidence "Iris-setosa" (1 # 2);
                         CategoryConfidence "Iris-virginica" (1 # 5)])).

(** A logistic regression that rejects the input (missing numerics) and has
    no confidence. *)
Definition rejecting_member : Member :=
  constant_member "logisticregression/3" (Some iris_classes)
    (Raise ValueError) (Raise AttributeError).

(** A member whose prediction fails with an exception other than
    [ValueError]. *)
Definition broken_member : Member :=
  constant_member "deepnet/4" (Some iris_classes)
    (Raise KeyError) (Raise KeyError).

(** A linear regression that predicts 5. *)
Definition linear_member : Member :=
  constant_member "linearregression/5" None
    (Ok [5]) (Raise AttributeError).

(** A regression tree that predicts 3 with confidence 1/2. *)
Definition numeric_tree_member : Member :=
  constant_member "model/6" None
    (Ok [3]) (Ok (ConfidenceDict 3 (1 # 2))).

Definition all_members : list Member :=
  [tree_member; two_class_member; rejecting_member; broken_member;
   linear_member; numeric_tree_member].

#[local] Instance example_collaborators : Collaborators :=
  table_collaborators all_members.

(** Operating points on the class ["Iris-setosa"]. *)
Definition setosa_operating_point (threshold : Q) : gmap string pyval :=
  {[ "positive_class" := VStr "Iris-setosa"; "threshold" := VNum threshold ]}.

(** The records that the fusion of [tree_member] alone returns. *)
Definition tree_entries : list category_probability :=
  [CategoryProbability "Iris-setosa" (125 # 625) None;
   CategoryProbability "Iris-versicolor" (250 # 625) None;
   CategoryProbability "Iris-virginica" (250 # 625) None].

(** A store with one fusion object: the object 1, whose attribute
    dictionary is at the address 10. *)
Definition one_fusion_store : Store :=
  {| dict_of := {[ 1%positive := 10%positive ]};
     dicts := {[ 10%positive := iris_fusion ["model/1"; "model/2"] [1; 2] ]} |}.

(** Serializers that accept every dictionary. *)
Definition accept_dump (d : Fusion) (output cache_set : option string) : Result unit :=
  Ok ().
Definition accept_dumps (d : Fusion) : Result string := Ok "blob".

(** The summary of the objective field of the iris fusion. *)
Definition iris_summary : field_summary :=
  {| bins := None;
     counts := None;
     categories := Some [("Iris-virginica", 50); ("Iris-versicolor", 50);
                         ("Iris-setosa", 50)] |}.

(** A store with three objects: the objects 1 and 2 share the attribute
    dictionary at the address 10, the object 3 has its own at 11. *)
Definition shared_store : Store :=
  {| dict_of := {[ 1%positive := 10%positive; 2%positive := 10%positive;
                   3%positive := 11%positive ]};
     dicts := {[ 10%positive := iris_fusion ["model/1"; "model/2"] [1; 2];
                 11%positive := numeric_fusion ["model/6"] [1] ]} |}.

(** * Properties *)

(** ** The result monad *)

Section ResultLemmas.
Context {A B : Type}.
Implicit Types (f : A -> Result B) (l : list A) (k : list B).

Lemma Result_mapM_nil f : mapM f [] = Ok [].
Proof. reflexivity. Qed.

Lemma Result_mapM_cons f x l :
  mapM f (x :: l) = y ← f x; k ← mapM f l; Ok (y :: k).
Proof. reflexivity. Qed.

Lemma Result_mapM_Ok f l k : mapM f l = Ok k <-> Forall2 (fun x y => f x = Ok y) l k.
Proof.
  revert k. induction l as [|x l IH]; intros k.
  - rewrite Result_mapM_nil. split.
    + intros [= <-]. constructor.
    + intros H. by inversion H.
  - rewrite Result_mapM_cons. split.
    + destruct (f x) as [y|e] eqn:Hx; [|done]. cbn.
      destruct (mapM f l) as [k'|e] eqn:Hl; [|done]. cbn.
      intros [= <-]. constructor; [done | by apply IH].
    + intros H. inversion H as [|? y ? k' Hx Hl]; subst.
      rewrite Hx. cbn. apply IH in Hl. rewrite Hl. reflexivity.
Qed.

Lemma Result_mapM_Ok_length f l k : mapM f l = Ok k -> length k = length l.
Proof. intros H%Result_mapM_Ok. symmetry. by eapply Forall2_length. Qed.

Lemma Result_mapM_total f l : Forall (fun x => is_Ok (f x)) l -> is_Ok (mapM f l).
Proof.
  induction 1 as [|x l [y Hy] _ [k Hk]].
  - by exists [].
  - exists (y :: k). rewrite Result_mapM_cons, Hy. cbn. rewrite Hk. reflexivity.
Qed.

(** The first failing element decides the exception. *)
Lemma Result_mapM_Raise f l e :
  mapM f l = Raise e ->
  exists prefix x suffix, l = prefix ++ x :: suffix
    /\ Forall (fun y => is_Ok (f y)) prefix /\ f x = Raise e.
Proof.
  induction l as [|x l IH]; [done|].
  rewrite Result_mapM_cons. destruct (f x) as [y|e'] eqn:Hx; cbn.
  - destruct (mapM f l) as [k|e'] eqn:Hl; [done|]. cbn. intros [= ->].
    destruct IH as (prefix & x' & suffix & -> & Hp & Hx'); [done|].
    exists (x :: prefix), x', suffix. split_and!; [done | | done].
    constructor; [by exists y | done].
  - intros [= ->]. exists [], x, l. split_and!; [done | constructor | done].
Qed.

Lemma Result_mapM_ext f g l : (forall x, x ∈ l -> f x = g x) -> mapM f l = mapM g l.
Proof.
  induction l as [|x l IH]; intros H; [done|].
  rewrite !Result_mapM_cons, (H x) by left. destruct (g x); [|done]. cbn.
  rewrite IH; [done|]. intros y Hy. apply H. by right.
Qed.

Lemma Result_mapM_pure (g : A -> B) l : mapM (fun x => Ok (g x)) l = Ok (map g l).
Proof.
  induction l as [|x l IH]; [done|]. rewrite Result_mapM_cons. cbn. by rewrite IH.
Qed.
End ResultLemmas.


(** ** Subscripts of records *)

Lemma subscript_record v key :
  is_record v ->
  (has_key key v /\ is_Ok (py_subscript v key))
  \/ (~ has_key key v /\ py_subscript v key = Raise KeyError).
Proof.
  destruct v as [| |d]; try done. intros _. cbn.
  destruct (d !! key) as [x|] eqn:Hd.
  - left. split; [by exists x | by exists x].
  - right. split; [by intros [? ?] | done].
Qed.

Lemma subscript_records_Ok key l :
  Forall is_record l -> Forall (has_key key) l ->
  is_Ok (mapM (fun model => py_subscript model key) l).
Proof.
  intros Hr Hk. apply Result_mapM_total. rewrite Forall_forall in Hr, Hk |- *.
  intros v Hv. destruct (subscript_record v key (Hr v Hv)) as [[_ ?]|[Hn _]]; [done|].
  destruct Hn. by apply Hk.
Qed.

Lemma subscript_records_Raise key l :
  Forall is_record l -> Exists (fun v => ~ has_key key v) l ->
  mapM (fun model => py_subscript model key) l = Raise KeyError.
Proof.
  intros Hr Hex.
  destruct (mapM _ l) as [k|e] eqn:Hm.
  - apply Result_mapM_Ok in Hm. apply Exists_exists in Hex as (v & Hv & Hn).
    apply list_elem_of_lookup in Hv as [i Hi].
    destruct (Forall2_lookup_l _ _ _ _ _ Hm Hi) as (y & _ & Hy).
    rewrite Forall_forall in Hr.
    destruct (subscript_record v key) as [[? _]|[_ Hk]]; [ | done | congruence].
    apply Hr. apply list_elem_of_lookup. eauto.
  - apply Result_mapM_Raise in Hm as (prefix & x & suffix & -> & _ & Hx).
    rewrite Forall_forall in Hr.
    destruct (subscript_record x key) as [[_ [? ?]]|[_ Hk]]; [ | congruence | congruence].
    apply Hr. set_solver.
Qed.

Lemma get_models_weight_records d rest :
  Forall is_record rest ->
  let models_info := VDict d :: rest in
  (Exists (fun v => ~ has_key "id" v) models_info
   /\ get_models_weight models_info = Raise ValueError)
  \/ (Forall (has_key "id") models_info
      /\ exists model_ids,
          mapM (fun model => py_subscript model "id") models_info = Ok model_ids
          /\ ((Exists (fun v => ~ has_key "weight" v) models_info
               /\ get_models_weight models_info
                  = Ok (model_ids, replicate (length models_info) (VNum 1)))
              \/ (Forall (has_key "weight") models_info
                  /\ exists ws,
                      mapM (fun model => py_subscript model "weight") models_info = Ok ws
                      /\ get_models_weight models_info = Ok (model_ids, ws)))).
Proof.
  intros Hrest models_info.
  assert (Hr : Forall is_record models_info) by (by constructor).
  unfold get_models_weight. change (py_getitem models_info 0) with (Ok (VDict d)).
  cbn [mbind Result_bind is_dict].
  destruct (decide (Forall (has_key "id") models_info)) as [Hid | Hnid].
  - right. split; [done|].
    destruct (subscript_records_Ok "id" _ Hr Hid) as [model_ids Hids].
    exists model_ids. split; [done|]. rewrite Hids. cbn [try_except mbind Result_bind].
    pose proof (Result_mapM_Ok_length _ _ _ Hids) as Hlen.
    destruct (decide (Forall (has_key "weight") models_info)) as [Hw | Hnw].
    + right. split; [done|].
      destruct (subscript_records_Ok "weight" _ Hr Hw) as [ws Hws].
      exists ws. split; [done|]. by rewrite Hws.
    + left. apply not_Forall_Exists in Hnw; [|apply _].
      split; [done|].
      rewrite (subscript_records_Raise "weight" _ Hr Hnw).
      rewrite <- Hlen. reflexivity.
  - left. apply not_Forall_Exists in Hnid; [|apply _].
    split; [done|].
    by rewrite (subscript_records_Raise "id" _ Hr Hnid).
Qed.

Lemma get_models_weight_lengths models_info model_ids ws :
  get_models_weight models_info = Ok (model_ids, ws) -> length model_ids = length ws.
Proof.
  unfold get_models_weight. destruct models_info as [|v rest]; [done|].
  change (py_getitem (v :: rest) 0) with (Ok v). cbn [mbind Result_bind].
  destruct (is_dict v).
  - destruct (mapM (fun model => py_subscript model "id") (v :: rest))
      as [ids|e] eqn:Hids; [|by destruct e].
    cbn [try_except mbind Result_bind].
    destruct (mapM (fun model => py_subscript model "weight") (v :: rest)) as [k|e] eqn:Hws.
    + intros [= <- <-]. apply Result_mapM_Ok_length in Hids, Hws. congruence.
    + destruct e; try done. intros [= <- <-]. symmetry. apply length_replicate.
  - intros [= <- <-]. cbn [length]. by rewrite length_replicate.
Qed.

(** ** [get_models_weight] *)

(** Claim C8.  Parsing the [models] declaration.  On a non-empty list of
    records an error is raised exactly when some record lacks the key
    ["id"], and the error is the [ValueError]; when every record has an
    ["id"] and some record lacks a ["weight"], every weight is 1; on a
    non-empty list of bare identifiers every weight is 1; and whenever a
    pair is returned, on any list at all, the two lists have the same
    length. *)
Theorem get_models_weight_cases (models_info : list pyval) :
  (models_info <> [] -> Forall is_record models_info ->
     (is_Raise (get_models_weight models_info)
      <-> Exists (fun v => ~ has_key "id" v) models_info)
     /\ (forall e, get_models_weight models_info = Raise e -> e = ValueError)
     /\ (Forall (has_key "id") models_info ->
         Exists (fun v => ~ has_key "weight" v) models_info ->
         exists model_ids,
           Forall2 (fun v id => py_subscript v "id" = Ok id) models_info model_ids
           /\ get_models_weight models_info
              = Ok (model_ids, replicate (length models_info) (VNum 1))))
  /\ (models_info <> [] -> Forall is_identifier models_info ->
      get_models_weight models_info
      = Ok (models_info, replicate (length models_info) (VNum 1)))
  /\ (forall model_ids ws,
        get_models_weight models_info = Ok (model_ids, ws) ->
        length model_ids = length ws).
Proof.
  split_and!.
  - intros Hne Hr. destruct models_info as [|v rest]; [done|]. clear Hne.
    apply Forall_cons in Hr as [Hv Hrest]. destruct v as [| |d]; try done.
    destruct (get_models_weight_records d rest Hrest)
      as [[Hex Hgm] | (Hall & ids & Hids & [[Hex Hgm] | (Hw & ws & Hws & Hgm)])].
    + split_and!.
      * split; [done|]. intros _. by exists ValueError.
      * intros e. rewrite Hgm. by intros [= <-].
      * intros Hid. apply Exists_exists in Hex as (x & Hx & Hn).
        rewrite Forall_forall in Hid. destruct Hn. by apply Hid.
    + split_and!.
      * split; [rewrite Hgm; by intros [? ?]|].
        intros (x & Hx & Hn)%Exists_exists. rewrite Forall_forall in Hall.
        destruct Hn. by apply Hall.
      * intros e. by rewrite Hgm.
      * intros _ _. exists ids. split; [by apply Result_mapM_Ok | done].
    + split_and!.
      * split; [rewrite Hgm; by intros [? ?]|].
        intros (x & Hx & Hn)%Exists_exists. rewrite Forall_forall in Hall.
        destruct Hn. by apply Hall.
      * intros e. by rewrite Hgm.
      * intros _ (x & Hx & Hn)%Exists_exists. rewrite Forall_forall in Hw.
        destruct Hn. by apply Hw.
  - intros Hne Hi. destruct models_info as [|v rest]; [done|].
    apply Forall_cons in Hi as [[s ->] _]. reflexivity.
  - apply get_models_weight_lengths.
Qed.

(** ** Batches *)

Section Batches.
Context {A : Type}.
Implicit Types (l : list A) (m start : Z).

Lemma py_slice_batch l start m :
  (0 <= start)%Z -> (0 < m)%Z ->
  py_slice l start (start + m) = take (Z.to_nat m) (drop (Z.to_nat start) l).
Proof.
  intros Hs Hm. unfold py_slice, slice_bound.
  rewrite !(proj2 (Z.ltb_ge _ _)) by lia.
  set (n := Z.of_nat (length l)).
  destruct (Z.le_gt_cases n start) as [Hge | Hlt].
  - rewrite !drop_ge by lia. by rewrite !take_nil.
  - rewrite (Z.min_l start n) by lia.
    destruct (Z.le_gt_cases (start + m) n) as [Hin | Hout].
    + rewrite Z.min_l by lia. f_equal. lia.
    + rewrite Z.min_r by lia.
      rewrite !take_ge; [done | |]; rewrite length_drop; lia.
Qed.


Lemma batches_from_spec l m fuel : 
  (0 < m)%Z ->
  forall start, (0 <= start)%Z -> (Z.of_nat (length l) - start <= Z.of_nat fuel)%Z ->
  concat (batches_from l m fuel start) = drop (Z.to_nat start) l
  /\ Forall (fun batch => (0 < length batch)%nat /\ (Z.of_nat (length batch) <= m)%Z)
            (batches_from l m fuel start)
  /\ (forall i batch, batches_from l m fuel start !! i = Some batch ->
        (S i < length (batches_from l m fuel start))%nat -> Z.of_nat (length batch) = m).
Proof.
  intros Hm. unfold batches_from. induction fuel as [|fuel IH]; intros start Hs Hfuel.
  - simpl. rewrite drop_ge by lia. split_and!; [done | constructor | intros i b Hi; by rewrite lookup_nil in Hi].
  - cbn [range_up]. destruct (Z.ltb_spec start (Z.of_nat (length l))) as [Hlt | Hge].
    + destruct (IH (start + m)%Z) as (Hcat & Hall & Hfull); [lia | lia |].
      cbn [map concat]. rewrite py_slice_batch by lia.
      split_and!.
      * rewrite Hcat. rewrite Z2Nat.inj_add by lia.
        rewrite <- drop_drop. apply take_drop.
      * constructor; [| done].
        rewrite length_take, length_drop. lia.
      * intros [|i] batch Hi Hlen; cbn [lookup list_lookup length] in *.
        -- injection Hi as <-. rewrite length_take, length_drop.
           destruct fuel as [|fuel']; cbn [range_up map length] in Hlen; [lia |].
           destruct (Z.ltb_spec (start + m) (Z.of_nat (length l))); cbn [map length] in Hlen; lia.
        -- apply (Hfull i); [done | lia].
    + simpl. rewrite drop_ge by lia.
      split_and!; [done | constructor | intros i b Hi; by rewrite lookup_nil in Hi].
Qed.
End Batches.

(** Claim C9, as amended: [max_models] positive.  For a positive integer
    [m] the batches are cut in order from [model_ids]: their concatenation
    is [model_ids], no batch is empty or longer than [m], and every batch
    but the last has exactly [m] elements.  Without a limit there is one
    batch, [model_ids] itself. *)
Theorem models_splits_partition {A} (model_ids : list A) (m : Z) :
  (0 < m)%Z ->
  make_models_splits model_ids None = Ok [model_ids]
  /\ exists splits,
       make_models_splits model_ids (Some m) = Ok splits
       /\ concat splits = model_ids
       /\ Forall (fun batch => (0 < length batch)%nat
                               /\ (Z.of_nat (length batch) <= m)%Z) splits
       /\ (forall i batch, splits !! i = Some batch ->
             (S i < length splits)%nat -> Z.of_nat (length batch) = m).
Proof.
  intros Hm. split; [reflexivity|].
  unfold make_models_splits, py_range.
  rewrite (proj2 (Z.eqb_neq m 0)) by lia.
  rewrite (proj2 (Z.ltb_lt 0 m)) by lia.
  cbn [mbind Result_bind]. rewrite Z.sub_0_r, Nat2Z.id.
  eexists. split; [reflexivity|].
  destruct (batches_from_spec model_ids m (length model_ids) Hm 0%Z)
    as (Hcat & Hall & Hfull); [lia | lia |].
  split_and!; [exact Hcat | exact Hall | exact Hfull].
Qed.

Lemma models_splits_partition_witness :
  (0 < 2)%Z
  /\ exists splits,
       make_models_splits five_members (Some 2%Z) = Ok splits
       /\ concat splits = five_members
       /\ map length splits = [2; 2; 1]%nat.
Proof.
  split; [lia|].
  destruct (models_splits_partition five_members 2 ltac:(lia))
    as (_ & splits & Heq & Hcat & _).
  exists splits. split_and!; [done | done |].
  vm_compute in Heq. injection Heq as <-. reflexivity.
Defined.

(** Claim C9 as stated fails for a negative [max_models]: the range of
    indexes is empty and so is the list of batches. *)
Lemma models_splits_negative_max_models :
  make_models_splits ["model/1"] (Some (-1)%Z) = Ok []
  /\ ~ (exists splits,
          make_models_splits ["model/1"] (Some (-1)%Z) = Ok splits
          /\ concat splits = ["model/1"]).
Proof.
  split; [reflexivity|]. intros (splits & Heq & Hcat).
  vm_compute in Heq. injection Heq as <-. discriminate Hcat.
Qed.

Lemma get_models_weight_cases_witness :
  let models_info := [record_entry "model/1" 2; id_only_entry "model/2"] in
  (models_info <> [] /\ Forall is_record models_info
   /\ Forall (has_key "id") models_info
   /\ Exists (fun v => ~ has_key "weight" v) models_info)
  /\ exists model_ids,
       get_models_weight models_info = Ok (model_ids, [VNum 1; VNum 1]).
Proof.
  intros models_info.
  assert (Hne : models_info <> []) by done.
  assert (Hr : Forall is_record models_info) by (repeat constructor).
  assert (Hid : Forall (has_key "id") models_info).
  { repeat constructor; eexists; vm_compute; reflexivity. }
  assert (Hw : Exists (fun v => ~ has_key "weight" v) models_info).
  { right. left. intros [x Hx]. vm_compute in Hx. discriminate Hx. }
  split; [done|].
  destruct (get_models_weight_cases models_info) as (Hrecords & _ & _).
  destruct (Hrecords Hne Hr) as (_ & _ & Hdefault).
  destruct (Hdefault Hid Hw) as (model_ids & _ & Heq).
  by exists model_ids.
Defined.

(** ** Positions in a list *)

Section Index.
Context `{EqDecision A}.
Implicit Types (x : A) (l : list A).

Lemma index_from_None x l i : index_from x l i = None <-> x ∉ l.
Proof.
  revert i. induction l as [|y l IH]; intros i; cbn.
  - split; [intros _; apply not_elem_of_nil | done].
  - destruct (decide (y = x)) as [-> | Hne].
    + split; [done | intros []; left].
    + rewrite IH, not_elem_of_cons. split; [by intros ? | by intros [_ ?]].
Qed.

Lemma index_from_Some x l i j :
  index_from x l i = Some j ->
  (i <= j)%nat /\ l !! (j - i)%nat = Some x /\ (forall k, (k < j - i)%nat -> l !! k <> Some x).
Proof.
  revert i. induction l as [|y l IH]; intros i; cbn; [done|].
  destruct (decide (y = x)) as [-> | Hne].
  - intros [= <-]. rewrite Nat.sub_diag. split_and!; [lia | done | lia].
  - intros (Hle & Hj & Hfirst)%IH.
    replace (j - i)%nat with (S (j - S i)) by lia.
    split_and!; [lia | done |].
    intros [|k] Hk; cbn; [congruence | apply Hfirst; lia].
Qed.

Lemma py_index_Ok x l j :
  py_index x l = Ok j <-> index_from x l 0 = Some j.
Proof. unfold py_index. destruct (index_from x l 0); naive_solver. Qed.

Lemma py_index_Raise x l e :
  py_index x l = Raise e <-> (x ∉ l) /\ e = ValueError.
Proof.
  unfold py_index. destruct (index_from x l 0) eqn:Hi.
  - split; [done|]. intros [Hn _]. apply (index_from_None x l 0) in Hn. congruence.
  - apply index_from_None in Hi. split; [by intros [= <-] | by intros [_ ->]].
Qed.

Lemma py_index_lookup x l j : py_index x l = Ok j -> l !! j = Some x.
Proof.
  intros Hj%py_index_Ok. apply index_from_Some in Hj as (_ & Hj & _).
  by rewrite Nat.sub_0_r in Hj.
Qed.
End Index.

Lemma py_getitem_Ok {A} (l : list A) i a : py_getitem l i = Ok a <-> l !! i = Some a.
Proof. unfold py_getitem. destruct (l !! i); naive_solver. Qed.

(** ** [rearrange_prediction] *)

Lemma rearrange_class_absent origin prediction class_name :
  class_name ∉ origin ->
  rearrange_class (Some origin) prediction class_name = Ok 0.
Proof.
  intros Hn. unfold rearrange_class.
  assert (py_index class_name origin = Raise ValueError) as ->; [|done].
  by apply py_index_Raise.
Qed.

Lemma rearrange_class_present origin prediction class_name j :
  index_from class_name origin 0 = Some j ->
  (length origin <= length prediction)%nat ->
  exists value, prediction !! j = Some value
    /\ rearrange_class (Some origin) prediction class_name = Ok value.
Proof.
  intros Hj Hlen. unfold rearrange_class.
  rewrite (proj2 (py_index_Ok _ _ _) Hj). cbn [mbind Result_bind].
  apply index_from_Some in Hj as (_ & Hj & _). rewrite Nat.sub_0_r in Hj.
  destruct (lookup_lt_is_Some_2 prediction j) as [value Hv].
  { apply lookup_lt_Some in Hj. lia. }
  exists value. split; [done|]. unfold py_getitem. by rewrite Hv.
Qed.

Lemma rearrange_prediction_spec origin destination prediction :
  (length origin <= length prediction)%nat ->
  exists out,
    rearrange_prediction (Some origin) (Some destination) prediction = Ok out
    /\ length out = length destination
    /\ forall i class_name, destination !! i = Some class_name ->
         (class_name ∉ origin -> out !! i = Some 0)
         /\ (forall j, index_from class_name origin 0 = Some j ->
               out !! i = prediction !! j).
Proof.
  intros Hlen. unfold rearrange_prediction.
  destruct (Result_mapM_total (rearrange_class (Some origin) prediction) destination) as [out Hout].
  { apply Forall_forall. intros c _.
    destruct (index_from c origin 0) as [j|] eqn:Hj.
    - destruct (rearrange_class_present _ prediction _ _ Hj Hlen) as (v & _ & ->). by exists v.
    - apply index_from_None in Hj. rewrite rearrange_class_absent by done. by exists 0. }
  exists out. split; [done|]. pose proof Hout as Hlen'%Result_mapM_Ok_length. split; [done|].
  apply Result_mapM_Ok in Hout. intros i c Hi.
  destruct (Forall2_lookup_l _ _ _ _ _ Hout Hi) as (v & Hv & Hc). rewrite Hv. split.
  - intros Hn. rewrite rearrange_class_absent in Hc by done. congruence.
  - intros j Hj.
    destruct (rearrange_class_present _ prediction _ _ Hj Hlen) as (v' & Hv' & Hc').
    congruence.
Qed.

(** ** Weights and votes *)

Section Votes.
Implicit Types (self : Fusion) (model : Member).

Lemma weigh_vector self l model_id w :
  member_weight self model_id = Ok w ->
  weigh self (Vector l) model_id = Ok (Vector (map (fun p => p * w) l)).
Proof.
  intros Hw. unfold weigh.
  rewrite (Result_mapM_ext _ (fun p => Ok (p * w))).
  - by rewrite Result_mapM_pure.
  - intros p _. by rewrite Hw.
Qed.

Lemma weigh_scalar self x model_id w :
  member_weight self model_id = Ok w ->
  weigh self (Scalar x) model_id = Ok (Scalar (x * w)).
Proof. intros Hw. unfold weigh. by rewrite Hw. Qed.

(** Claim C5.  In a classification fusion, a member whose list of classes
    differs from the class names of the fusion votes with its weighted
    vector laid out along the class names of the fusion: at the position
    of a class that the member lists, the weighted value that the member
    gives to the class (at its first position in the member's list), and
    0 at the position of a class that the member does not list. *)
Theorem probability_vote_reprojected self input kwargs model
    (names member_names : list string) (p : list Q) (w : Q) :
  regression self = false ->
  class_names self = Some names ->
  m_class_names model = Some member_names ->
  names <> member_names ->
  m_predict_probability model input kwargs = Ok p ->
  (length member_names <= length p)%nat ->
  member_weight self (m_resource_id model) = Ok w ->
  exists out,
    probability_vote self input kwargs model = Ok (Some (w, Vector out))
    /\ rearrange_prediction (Some member_names) (Some names)
                            (map (fun x => x * w) p) = Ok out
    /\ length out = length names
    /\ forall i class_name, names !! i = Some class_name ->
         (class_name ∉ member_names -> out !! i = Some 0)
         /\ (forall j, index_from class_name member_names 0 = Some j ->
               out !! i = (fun x => x * w) <$> p !! j).
Proof.
  intros Hreg Hnames Hmember Hdiff Hp Hlen Hw.
  destruct (rearrange_prediction_spec member_names names (map (fun x => x * w) p))
    as (out & Hout & Hlen' & Hspec); [by rewrite length_map|].
  exists out. split_and!; [| done | done |].
  - unfold probability_vote. rewrite Hp, Hreg, Hw. cbn [mbind Result_bind].
    rewrite (weigh_vector _ _ _ _ Hw). cbn [mbind Result_bind negb andb].
    rewrite Hnames, Hmember, bool_decide_eq_false_2 by congruence.
    cbn [negb]. by rewrite Hout.
  - intros i c Hi. destruct (Hspec i c Hi) as [Habsent Hpresent].
    split; [done|]. intros j Hj. rewrite (Hpresent j Hj). apply list_lookup_fmap.
Qed.
End Votes.

Lemma probability_vote_reprojected_witness :
  let self := iris_fusion ["model/1"; "model/2"] [1; 2] in
  (regression self = false
   /\ class_names self = Some iris_classes
   /\ m_class_names two_class_member = Some ["Iris-setosa"; "Iris-virginica"]
   /\ iris_classes <> ["Iris-setosa"; "Iris-virginica"]
   /\ m_predict_probability two_class_member no_input None = Ok [3 # 4; 1 # 4]
   /\ member_weight self (m_resource_id two_class_member) = Ok 2)
  /\ exists out,
       probability_vote self no_input None two_class_member = Ok (Some (2, Vector out))
       /\ length out = 3%nat
       /\ out !! 1%nat = Some 0.
Proof.
  intros self.
  assert (Hdiff : iris_classes <> ["Iris-setosa"; "Iris-virginica"]) by (by vm_compute).
  split; [by split_and!|].
  destruct (probability_vote_reprojected self no_input None two_class_member
              iris_classes ["Iris-setosa"; "Iris-virginica"] [3 # 4; 1 # 4] 2)
    as (out & Hvote & _ & Hlen & Hspec);
    [reflexivity | reflexivity | reflexivity | exact Hdiff | reflexivity
    | cbn; lia | reflexivity |].
  exists out. split_and!; [done | done |].
  apply (Hspec 1%nat "Iris-versicolor"); [reflexivity|].
  vm_compute. intros Hin. repeat (apply elem_of_cons in Hin as [Heq | Hin]; [discriminate Heq|]).
  by apply elem_of_nil in Hin.
Defined.

(** ** Sums of rationals *)

Lemma fold_left_Qplus l a : fold_left Qplus l a == a + py_sum l.
Proof.
  unfold py_sum. revert a. induction l as [|x l IH]; intros a; cbn.
  - lra.
  - rewrite (IH (a + x)), (IH (0 + x)). lra.
Qed.

Lemma py_sum_cons x l : py_sum (x :: l) == x + py_sum l.
Proof. unfold py_sum at 1. cbn. rewrite fold_left_Qplus. lra. Qed.

Lemma py_sum_nonneg l : Forall (Qle 0) l -> 0 <= py_sum l.
Proof.
  induction 1 as [|x l Hx _ IH]; [by compute|]. rewrite py_sum_cons. lra.
Qed.

Lemma py_sum_elem_le l x : Forall (Qle 0) l -> x ∈ l -> x <= py_sum l.
Proof.
  induction 1 as [|y l Hy Hl IH]; intros Hin.
  - by apply elem_of_nil in Hin.
  - rewrite py_sum_cons. pose proof (py_sum_nonneg l Hl).
    apply elem_of_cons in Hin as [-> | Hin]; [lra|]. specialize (IH Hin). lra.
Qed.

Lemma py_sum_pos l : Forall (Qle 0) l -> Exists (Qlt 0) l -> 0 < py_sum l.
Proof.
  intros Hl (x & Hin & Hx)%Exists_exists.
  pose proof (py_sum_elem_le l x Hl Hin). lra.
Qed.

Lemma py_sum_scale l t : py_sum (map (fun v => v / t) l) == py_sum l / t.
Proof.
  induction l as [|x l IH]; cbn [map].
  - unfold py_sum. cbn. unfold Qdiv. lra.
  - rewrite !py_sum_cons, IH. unfold Qdiv. lra.
Qed.

(** ** Sums of votes *)

Lemma length_vector_add acc v : length (vector_add acc v) = length acc.
Proof. unfold vector_add. apply length_imap. Qed.

Lemma vector_add_lookup acc v i :
  vector_add acc v !! i
  = (fun a => match v !! i with Some b => a + b | None => a end) <$> acc !! i.
Proof. unfold vector_add. apply list_lookup_imap. Qed.

Lemma vector_add_nonneg acc v :
  Forall (Qle 0) acc -> Forall (Qle 0) v -> Forall (Qle 0) (vector_add acc v).
Proof.
  rewrite !Forall_lookup. intros Hacc Hv i x. rewrite vector_add_lookup.
  destruct (acc !! i) as [a|] eqn:Ha; [|done]. cbn. intros [= <-].
  specialize (Hacc i a Ha). destruct (v !! i) as [b|] eqn:Hb; [|done].
  specialize (Hv i b Hb). lra.
Qed.

Lemma vector_add_pos acc v :
  Forall (Qle 0) acc -> Forall (Qle 0) v -> length v = length acc ->
  Exists (Qlt 0) acc \/ Exists (Qlt 0) v -> Exists (Qlt 0) (vector_add acc v).
Proof.
  intros Hacc Hv Hlen Hpos. rewrite Forall_lookup in Hacc, Hv.
  apply Exists_exists.
  assert (exists i a b, acc !! i = Some a /\ v !! i = Some b /\ 0 < a + b)
    as (i & a & b & Ha & Hb & Hab).
  { destruct Hpos as [Hp | Hp]; apply Exists_exists in Hp as (x & Hin & Hx);
      apply list_elem_of_lookup in Hin as [i Hi].
    - destruct (lookup_lt_is_Some_2 v i) as [b Hb].
      { apply lookup_lt_Some in Hi. lia. }
      exists i, x, b. specialize (Hv i b Hb). split_and!; [done | done | lra].
    - destruct (lookup_lt_is_Some_2 acc i) as [a Ha].
      { apply lookup_lt_Some in Hi. lia. }
      exists i, a, x. specialize (Hacc i a Ha). split_and!; [done | done | lra]. }
  exists (a + b). split; [|done].
  apply list_elem_of_lookup. exists i. by rewrite vector_add_lookup, Ha, Hb.
Qed.

Lemma fold_vector_add rest : forall acc,
  Forall (Qle 0) acc ->
  Forall (fun v => length v = length acc /\ Forall (Qle 0) v) rest ->
  length (fold_left vector_add rest acc) = length acc
  /\ Forall (Qle 0) (fold_left vector_add rest acc)
  /\ (Exists (Qlt 0) acc \/ Exists (Exists (Qlt 0)) rest ->
      Exists (Qlt 0) (fold_left vector_add rest acc)).
Proof.
  induction rest as [|v rest IH]; intros acc Hacc Hrest; cbn [fold_left].
  - split_and!; [done | done |]. intros [? | Hex]; [done | by inversion Hex].
  - apply Forall_cons in Hrest as [[Hlen Hv] Hrest].
    destruct (IH (vector_add acc v)) as (Hl & Hn & Hp).
    + by apply vector_add_nonneg.
    + eapply Forall_impl; [exact Hrest|]. intros u [? ?].
      by rewrite length_vector_add.
    + rewrite length_vector_add in Hl. split_and!; [done | done |].
      intros Hpos. apply Hp.
      destruct Hpos as [Ha | Hex]; [left; apply vector_add_pos; auto|].
      apply Exists_cons in Hex as [Hv' | Hex]; [|by right].
      left. apply vector_add_pos; auto.
Qed.

Lemma summed_votes_spec vectors n :
  vectors <> [] ->
  Forall (fun l => length l = n /\ Forall (Qle 0) l) vectors ->
  length (summed_votes vectors) = n
  /\ Forall (Qle 0) (summed_votes vectors)
  /\ (Exists (Exists (Qlt 0)) vectors -> 0 < py_sum (summed_votes vectors)).
Proof.
  destruct vectors as [|first rest]; [done|]. intros _ Hall.
  apply Forall_cons in Hall as [[Hlen Hfirst] Hrest]. cbn [summed_votes].
  destruct (fold_vector_add rest first Hfirst) as (Hl & Hn & Hp).
  { eapply Forall_impl; [exact Hrest|]. intros u [? ?]. split; [congruence | done]. }
  split_and!; [congruence | done |].
  intros Hex. apply py_sum_pos; [done|]. apply Hp.
  apply Exists_cons in Hex as [? | ?]; auto.
Qed.

Lemma as_vector_vectors vectors : mapM as_vector (Vector <$> vectors) = Ok vectors.
Proof.
  induction vectors as [|l vectors IH]; [done|].
  cbn [fmap list_fmap]. rewrite Result_mapM_cons. cbn. by rewrite IH.
Qed.

Lemma py_div_nonzero x t : ~ t == 0 -> py_div x t = Ok (x / t).
Proof.
  intros Ht. unfold py_div. destruct (Qeq_bool t 0) eqn:Hb; [|done].
  by apply Qeq_bool_eq in Hb.
Qed.

(** The distribution of votes that are non-negative and not all zero. *)
Lemma combine_to_distribution_spec vectors n :
  vectors <> [] ->
  Forall (fun l => length l = n /\ Forall (Qle 0) l) vectors ->
  Exists (Exists (Qlt 0)) vectors ->
  exists output,
    combine_to_distribution (Vector <$> vectors) = Ok output
    /\ length output = n
    /\ Forall (fun p => 0 <= p <= 1) output
    /\ py_sum output == 1.
Proof.
  intros Hne Hall Hex.
  destruct (summed_votes_spec vectors n Hne Hall) as (Hlen & Hnonneg & Hpos).
  specialize (Hpos Hex). set (total := py_sum (summed_votes vectors)) in *.
  exists (map (fun v => v / total) (summed_votes vectors)). split_and!.
  - unfold combine_to_distribution. rewrite as_vector_vectors. cbn [mbind Result_bind].
    fold total. rewrite (Result_mapM_ext _ (fun v => Ok (v / total))).
    + apply Result_mapM_pure.
    + intros v _. apply py_div_nonzero. lra.
  - by rewrite length_map.
  - apply Forall_fmap. rewrite Forall_forall in Hnonneg |- *. intros v Hv. cbn.
    pose proof (Hnonneg v Hv) as H0.
    pose proof (py_sum_elem_le _ v (proj2 (Forall_forall _ _) Hnonneg) Hv) as Hle.
    fold total in Hle. split.
    + apply Qle_shift_div_l; lra.
    + apply Qle_shift_div_r; lra.
  - rewrite py_sum_scale. fold total. field. lra.
Qed.

Lemma zip_with_category_probability names output :
  length output = length names ->
  let entries := zip_with (fun class_name p => CategoryProbability class_name p None)
                          names output in
  map cp_category entries = names /\ map cp_probability entries = output.
Proof.
  revert output. induction names as [|c names IH]; intros [|p output] Hlen; try done.
  cbn in Hlen. destruct (IH output) as [Hc Hp]; [lia|].
  cbn. by rewrite Hc, Hp.
Qed.

(** ** The votes of a classification fusion are vectors *)

Section Vectors.
Context `{Collaborators}.
Implicit Types (self : Fusion) (input : input_data) (model : Member).

Lemma probability_vote_vector self input kwargs model w v :
  regression self = false ->
  probability_vote self input kwargs model = Ok (Some (w, v)) ->
  is_vector v.
Proof.
  intros Hreg. unfold probability_vote.
  destruct (m_predict_probability model input kwargs) as [p|e];
    [|by destruct (is_exn ValueError e)].
  rewrite Hreg. cbn [mbind Result_bind negb andb].
  destruct (member_weight self (m_resource_id model)) as [w'|e]; [|done].
  cbn [mbind Result_bind]. unfold weigh.
  destruct (mapM _ p) as [l|e]; [|done]. cbn [fmap Result_fmap mbind Result_bind].
  destruct (negb (bool_decide (class_names self = m_class_names model))).
  - destruct (rearrange_prediction _ _ l) as [out|e]; cbn.
    + intros [= _ <-]. by exists out.
    + destruct (is_exn AttributeError e); [|done]. intros [= _ <-]. by exists l.
  - intros [= _ <-]. by exists l.
Qed.

Lemma member_votes_vectors self input kwargs models contributions :
  regression self = false ->
  member_votes self input kwargs models = Ok contributions ->
  Forall (fun c => is_vector c.2) contributions.
Proof.
  intros Hreg. unfold member_votes.
  destruct (mapM _ models) as [k|e] eqn:Hk; [|done]. cbn. intros [= <-].
  apply Result_mapM_Ok in Hk. induction Hk as [|model o models k Ho _ IH]; [constructor|].
  destruct o as [[w v]|]; cbn; [|done]. constructor; [|done].
  by eapply probability_vote_vector.
Qed.

Lemma collect_votes_vectors self input strategy votes contributing :
  regression self = false ->
  collect_votes self input strategy = Ok (votes, contributing) ->
  Forall is_vector votes /\ length contributing = length votes.
Proof.
  intros Hreg. unfold collect_votes.
  destruct (mapM _ (models_splits self)) as [per_split|e] eqn:Hsplits; [|done].
  cbn. intros [= <- <-]. split; [|by rewrite !length_fmap].
  apply Forall_fmap. apply Result_mapM_Ok in Hsplits.
  induction Hsplits as [|models_split contributions splits per_split Hs _ IH];
    [constructor|].
  cbn [concat]. apply Forall_app. split; [|done].
  unfold split_votes in Hs. destruct (mapM _ models_split) as [models|e]; [|done].
  by eapply member_votes_vectors.
Qed.
End Vectors.

Section Distribution.
Context `{Collaborators}.
Implicit Types (self : Fusion) (input : input_data).

Lemma check_passes_Ok self input :
  check_passes self input ->
  (if missing_numerics self then Ok ()
   else check_no_missing_numerics input (model_fields self)) = Ok ().
Proof. intros [-> | Hc]; [done|]. by destruct (missing_numerics self). Qed.

(** Claim C1, as amended: the weighted votes are non-negative and not all
    zero.  For a classification fusion, when at least one member
    contributes a vote, every vote has one non-negative component per class
    name and some component is positive, [predict_probability] with
    [compact=False] returns one record per class name, in the order of
    [class_names]; every probability lies between 0 and 1 and the
    probabilities add up to 1. *)
Theorem predict_probability_distribution self input strategy
    (vectors : list (list Q)) (contributing : list Q) (names : list string) :
  regression self = false ->
  class_names self = Some names ->
  check_passes self input ->
  collect_votes self input strategy = Ok (Vector <$> vectors, contributing) ->
  vectors <> [] ->
  Forall (fun l => length l = length names /\ Forall (Qle 0) l) vectors ->
  Exists (Exists (Qlt 0)) vectors ->
  exists entries,
    predict_probability self input strategy false = Ok (ProbabilityList entries)
    /\ map cp_category entries = names
    /\ Forall (fun entry => 0 <= cp_probability entry <= 1) entries
    /\ py_sum (map cp_probability entries) == 1.
Proof.
  intros Hreg Hnames Hcheck Hvotes Hne Hall Hex.
  destruct (combine_to_distribution_spec vectors (length names) Hne Hall Hex)
    as (output & Hout & Hlen & Hrange & Hsum).
  destruct (zip_with_category_probability names output Hlen) as [Hc Hp].
  eexists. split_and!.
  - unfold predict_probability. rewrite (check_passes_Ok _ _ Hcheck), Hvotes.
    cbn [mbind Result_bind]. rewrite Hreg, Hout. cbn [mbind Result_bind].
    unfold iter_class_names. rewrite Hnames. reflexivity.
  - exact Hc.
  - rewrite <- Hp in Hrange. by apply Forall_fmap in Hrange.
  - by rewrite Hp.
Qed.
End Distribution.

Lemma predict_probability_distribution_witness :
  let self := iris_fusion ["model/1"; "model/2"] [1; 2] in
  let vectors := [[1 # 5; 2 # 5; 2 # 5]; [6 # 4; 0; 2 # 4]] in
  (regression self = false
   /\ class_names self = Some iris_classes
   /\ check_passes self no_input
   /\ collect_votes self no_input LAST_PREDICTION = Ok (Vector <$> vectors, [1; 2])
   /\ vectors <> []
   /\ Forall (fun l => length l = length iris_classes /\ Forall (Qle 0) l) vectors
   /\ Exists (Exists (Qlt 0)) vectors)
  /\ exists entries,
       predict_probability self no_input LAST_PREDICTION false
       = Ok (ProbabilityList entries)
       /\ map cp_category entries = iris_classes
       /\ py_sum (map cp_probability entries) == 1.
Proof.
  intros self vectors.
  assert (Hcheck : check_passes self no_input) by (by left).
  assert (Hvotes : collect_votes self no_input LAST_PREDICTION
                   = Ok (Vector <$> vectors, [1; 2])) by (by vm_compute).
  assert (Hall : Forall (fun l => length l = length iris_classes /\ Forall (Qle 0) l)
                        vectors).
  { repeat constructor; by vm_compute. }
  assert (Hex : Exists (Exists (Qlt 0)) vectors).
  { left. left. by vm_compute. }
  split; [by split_and!|].
  destruct (predict_probability_distribution self no_input LAST_PREDICTION
              vectors [1; 2] iris_classes)
    as (entries & Heq & Hc & _ & Hsum); try done.
  by exists entries.
Defined.

(** Claim C1 as stated fails when the only contributing member has weight
    0: a vote is contributed, its components are all 0, and no list of
    probabilities is returned. *)
Lemma predict_probability_zero_weight :
  let self := iris_fusion ["model/1"] [0] in
  regression self = false
  /\ (exists votes contributing,
        collect_votes self no_input LAST_PREDICTION = Ok (votes, contributing)
        /\ length votes = 1%nat)
  /\ predict_probability self no_input LAST_PREDICTION false = Raise ZeroDivisionError
  /\ ~ (exists entries,
          predict_probability self no_input LAST_PREDICTION false
          = Ok (ProbabilityList entries)
          /\ py_sum (map cp_probability entries) == 1).
Proof.
  intros self. split_and!.
  - reflexivity.
  - eexists _, _. split; [by vm_compute | reflexivity].
  - by vm_compute.
  - intros (entries & Heq & _). vm_compute in Heq. discriminate Heq.
Qed.

(** ** The member loops over the loaded batches *)

Lemma Result_mapM_app {A B} (f : A -> Result B) l1 l2 :
  mapM f (l1 ++ l2) = k1 ← mapM f l1; k2 ← mapM f l2; Ok (k1 ++ k2).
Proof.
  induction l1 as [|x l1 IH]; cbn [app].
  - rewrite Result_mapM_nil. cbn. by destruct (mapM f l2).
  - rewrite !Result_mapM_cons, IH. destruct (f x); [|done]. cbn.
    destruct (mapM f l1); [|done]. cbn. by destruct (mapM f l2).
Qed.

Lemma Result_mapM_fmap {A B C} (f : B -> Result C) (g : A -> B) l :
  mapM f (g <$> l) = mapM (fun x => f (g x)) l.
Proof.
  induction l as [|x l IH]; [done|].
  cbn [fmap list_fmap]. rewrite !Result_mapM_cons. fold (g <$> l). by rewrite IH.
Qed.

Section Loaded.
Context `{Collaborators}.
Implicit Types (self : Fusion) (input : input_data).
Implicit Types (batches : list (option missing_strategy * list Member)).

Lemma member_votes_flat self input kwargs models :
  member_votes self input kwargs models
  = flat_votes self input (pair kwargs <$> models).
Proof. unfold member_votes, flat_votes. by rewrite Result_mapM_fmap. Qed.

Lemma member_confidences_flat self input kwargs models :
  member_confidences self input kwargs models
  = flat_confidences self input (pair kwargs <$> models).
Proof. unfold member_confidences, flat_confidences. by rewrite Result_mapM_fmap. Qed.

Lemma flat_votes_app self input l1 l2 :
  flat_votes self input (l1 ++ l2)
  = v1 ← flat_votes self input l1; v2 ← flat_votes self input l2; Ok (v1 ++ v2).
Proof.
  unfold flat_votes. rewrite Result_mapM_app.
  destruct (mapM _ l1); [|done]. cbn. destruct (mapM _ l2); [|done]. cbn.
  by rewrite omap_app.
Qed.

Lemma flat_confidences_app self input l1 l2 :
  flat_confidences self input (l1 ++ l2)
  = v1 ← flat_confidences self input l1; v2 ← flat_confidences self input l2;
    Ok (v1 ++ v2).
Proof.
  unfold flat_confidences. rewrite Result_mapM_app.
  destruct (mapM _ l1); [|done]. cbn. destruct (mapM _ l2); [|done]. cbn.
  by rewrite omap_app.
Qed.

Lemma split_votes_loaded self input strategy splits batches :
  Forall2 (fun models_split batch =>
             batch.1 = member_kwargs models_split strategy
             /\ mapM (instantiate self) models_split = Ok batch.2) splits batches ->
  fmap (M:=Result) (fun l => concat l) (mapM (split_votes self input strategy) splits)
  = flat_votes self input (members_of batches).
Proof.
  induction 1 as [|models_split [kwargs models] splits batches [Hkw Hload] _ IH];
    [done|].
  cbn in Hkw, Hload. subst kwargs.
  rewrite Result_mapM_cons. unfold members_of in *. cbn [mbind list_bind].
  rewrite flat_votes_app, <- IH. cbn [fst snd].
  rewrite <- member_votes_flat.
  assert (split_votes self input strategy models_split
          = member_votes self input (member_kwargs models_split strategy) models)
    as -> by (unfold split_votes; by rewrite Hload).
  destruct (member_votes _ _ _ _); [|done]. cbn.
  by destruct (mapM _ splits).
Qed.

Lemma split_confidences_loaded self input strategy splits batches :
  Forall2 (fun models_split batch =>
             batch.1 = member_kwargs models_split strategy
             /\ mapM (instantiate self) models_split = Ok batch.2) splits batches ->
  fmap (M:=Result) (fun l => concat l) (mapM (split_confidences self input strategy) splits)
  = flat_confidences self input (members_of batches).
Proof.
  induction 1 as [|models_split [kwargs models] splits batches [Hkw Hload] _ IH];
    [done|].
  cbn in Hkw, Hload. subst kwargs.
  rewrite Result_mapM_cons. unfold members_of in *. cbn [mbind list_bind].
  rewrite flat_confidences_app, <- IH. cbn [fst snd].
  rewrite <- member_confidences_flat.
  assert (split_confidences self input strategy models_split
          = member_confidences self input (member_kwargs models_split strategy) models)
    as -> by (unfold split_confidences; by rewrite Hload).
  destruct (member_confidences _ _ _ _); [|done]. cbn.
  by destruct (mapM _ splits).
Qed.

(** With the batches loaded, the votes and the weights are those of the
    member loop over all the members. *)
Lemma collect_votes_loaded self input strategy batches :
  loaded self strategy batches ->
  collect_votes self input strategy
  = (fun contributions => (contributions.*2, contributions.*1))
      <$> flat_votes self input (members_of batches).
Proof.
  intros Hl. rewrite <- (split_votes_loaded _ _ _ _ _ Hl).
  unfold collect_votes. by destruct (mapM _ (models_splits self)).
Qed.

Lemma collect_confidences_loaded self input strategy batches :
  loaded self strategy batches ->
  collect_confidences self input strategy
  = (fun contributions => (contributions.*1, contributions.*2))
      <$> flat_confidences self input (members_of batches).
Proof.
  intros Hl. rewrite <- (split_confidences_loaded _ _ _ _ _ Hl).
  unfold collect_confidences. by destruct (mapM _ (models_splits self)).
Qed.
End Loaded.

(** ** Regression: the weighted mean *)

Lemma Qltb_lt x y : Qltb x y = true <-> x < y.
Proof.
  unfold Qltb. rewrite negb_true_iff. split.
  - intros Hb. apply Qnot_le_lt. intros Hle. apply Qle_bool_iff in Hle. congruence.
  - intros Hlt. destruct (Qle_bool y x) eqn:Hb; [|done].
    apply Qle_bool_iff in Hb. lra.
Qed.

Lemma Qltb_not_lt x y : Qltb x y = false <-> ~ x < y.
Proof.
  split.
  - intros Hb Hlt%Qltb_lt. congruence.
  - intros Hn. destruct (Qltb x y) eqn:Hb; [|done]. by apply Qltb_lt in Hb.
Qed.

Lemma member_weight_Ok self model_id i w :
  index_from model_id (model_ids self) 0 = Some i ->
  weights self !! i = Some w ->
  member_weight self model_id = Ok w.
Proof.
  intros Hi Hw. unfold member_weight. rewrite (proj2 (py_index_Ok _ _ _) Hi).
  cbn. by apply py_getitem_Ok.
Qed.

Lemma foldlM_add_vote xs : forall a,
  foldlM add_vote a (Scalar <$> xs) = Ok (fold_left Qplus xs a).
Proof. induction xs as [|x xs IH]; intros a; [done|]. cbn. apply IH. Qed.

Section Regression.
Context `{Collaborators}.
Implicit Types (self : Fusion) (input : input_data).

Lemma probability_vote_scalar self input km outcome :
  regression self = true ->
  scalar_outcome self input km outcome ->
  probability_vote self input km.1 km.2 = Ok (weighted <$> outcome).
Proof.
  intros Hreg Hout. unfold probability_vote.
  destruct outcome as [[w x]|]; cbn in Hout.
  - destruct Hout as [[rest Hp] (i & Hi & Hw)]. rewrite Hp, Hreg.
    cbn [py_getitem lookup list_lookup fmap Result_fmap mbind Result_bind].
    pose proof (member_weight_Ok _ _ _ _ Hi Hw) as Hmw.
    rewrite Hmw. cbn [mbind Result_bind].
    rewrite (weigh_scalar _ _ _ _ Hmw). reflexivity.
  - by rewrite Hout.
Qed.

Lemma flat_votes_scalar self input members outcomes :
  regression self = true ->
  Forall2 (scalar_outcome self input) members outcomes ->
  flat_votes self input members = Ok (weighted <$> omap id outcomes).
Proof.
  intros Hreg Hall. unfold flat_votes.
  assert (mapM (fun km => probability_vote self input km.1 km.2) members
          = Ok (fmap weighted <$> outcomes)) as ->.
  { apply Result_mapM_Ok. apply Forall2_fmap_r.
    eapply Forall2_impl; [exact Hall|]. intros km o Ho.
    by apply probability_vote_scalar. }
  cbn [mbind Result_bind]. f_equal.
  clear Hall. induction outcomes as [|[c|] outcomes IH]; [done | |]; cbn; by rewrite IH.
Qed.

(** Claim C2, as amended: the division is skipped when the sum of the
    contributing weights is zero or negative.  For a regression fusion whose
    members are loaded, where every member either is skipped or contributes
    its scalar output [x] with the weight [w] found at the first position of
    its id in [model_ids], [predict_probability] returns a single value: the
    weighted mean [sum (x * w) / sum w] when the sum of the contributing
    weights is positive, the sum [sum (x * w)] itself otherwise. *)
Theorem predict_probability_weighted_mean self input strategy batches
    (outcomes : list (option (Q * Q))) (compact : bool) :
  regression self = true ->
  check_passes self input ->
  loaded self strategy batches ->
  Forall2 (scalar_outcome self input) (members_of batches) outcomes ->
  let contributions := omap id outcomes in
  let total_weight := py_sum contributions.*1 in
  let weighted_sum := py_sum ((fun c => c.2 * c.1) <$> contributions) in
  exists value,
    predict_probability self input strategy compact
    = Ok (if compact then ProbabilityCompact [value] else PredictionDict value)
    /\ (0 < total_weight -> value == weighted_sum / total_weight)
    /\ (~ 0 < total_weight -> value = weighted_sum).
Proof.
  intros Hreg Hcheck Hloaded Hall contributions total_weight weighted_sum.
  exists (if Qltb 0 total_weight then weighted_sum / total_weight else weighted_sum).
  split.
  - unfold predict_probability.
    rewrite (check_passes_Ok _ _ Hcheck), (collect_votes_loaded _ _ _ _ Hloaded).
    rewrite (flat_votes_scalar _ _ _ _ Hreg Hall).
    cbn [fmap Result_fmap mbind Result_bind]. rewrite Hreg.
    fold contributions.
    assert ((weighted <$> contributions).*2
            = Scalar <$> ((fun c => c.2 * c.1) <$> contributions)) as ->.
    { rewrite <- !list_fmap_compose. by apply list_fmap_ext. }
    assert ((weighted <$> contributions).*1 = contributions.*1) as ->.
    { rewrite <- !list_fmap_compose. by apply list_fmap_ext. }
    rewrite foldlM_add_vote. cbn [mbind Result_bind].
    fold total_weight. fold (py_sum ((fun c => c.2 * c.1) <$> contributions)).
    fold weighted_sum. by destruct compact.
  - split.
    + intros Hpos%Qltb_lt. by rewrite Hpos.
    + intros Hneg%Qltb_not_lt. by rewrite Hneg.
Qed.
End Regression.

Lemma predict_probability_weighted_mean_witness :
  let self := numeric_fusion ["linearregression/5"; "logisticregression/3"; "model/6"]
                             [1; 2; 3] in
  let batches := [(Some LAST_PREDICTION,
                   [linear_member; rejecting_member; numeric_tree_member])] in
  let outcomes := [Some (1, 5); None; Some (3, 3)] in
  (regression self = true
   /\ check_passes self no_input
   /\ loaded self LAST_PREDICTION batches
   /\ Forall2 (scalar_outcome self no_input) (members_of batches) outcomes
   /\ 0 < py_sum (omap id outcomes).*1)
  /\ exists value,
       predict_probability self no_input LAST_PREDICTION true
       = Ok (ProbabilityCompact [value])
       /\ value == 7 # 2.
Proof.
  intros self batches outcomes.
  assert (Hcheck : check_passes self no_input) by (by left).
  assert (Hloaded : loaded self LAST_PREDICTION batches).
  { constructor; [|constructor]. split; by vm_compute. }
  assert (Hall : Forall2 (scalar_outcome self no_input) (members_of batches) outcomes).
  { repeat constructor.
    - by exists [].
    - exists 0%nat. by vm_compute.
    - by exists [].
    - exists 2%nat. by vm_compute. }
  assert (Hpos : 0 < py_sum (omap id outcomes).*1) by (by vm_compute).
  split; [by split_and!|].
  destruct (predict_probability_weighted_mean self no_input LAST_PREDICTION
              batches outcomes true eq_refl Hcheck Hloaded Hall)
    as (value & Heq & Hmean & _).
  exists value. split; [exact Heq|].
  rewrite (Hmean Hpos). by vm_compute.
Defined.

(** Claim C2 as stated fails for a negative sum of weights: the sum is not
    0, yet the division is skipped and the result is not the weighted
    mean. *)
Lemma predict_probability_negative_weight :
  let self := numeric_fusion ["linearregression/5"] [-1] in
  regression self = true
  /\ predict_probability self no_input LAST_PREDICTION true
     = Ok (ProbabilityCompact [-5])
  /\ ~ py_sum [-1] == 0
  /\ ~ -5 == py_sum [5 * -1] / py_sum [-1].
Proof.
  intros self. split_and!; [done | by vm_compute | by vm_compute | by vm_compute].
Qed.

(** ** Members that fail *)

Section Skipped.
Context `{Collaborators}.
Implicit Types (self : Fusion) (input : input_data) (model : Member).

Lemma probability_vote_skipped self input kwargs model :
  raises_ValueError (m_predict_probability model input kwargs) = true ->
  probability_vote self input kwargs model = Ok None.
Proof.
  unfold probability_vote, raises_ValueError.
  destruct (m_predict_probability model input kwargs) as [p|e]; [done|].
  by intros ->.
Qed.

Lemma confidence_vote_skipped self input kwargs model :
  raises (m_predict_confidence model input kwargs) = true ->
  confidence_vote self input kwargs model = Ok None.
Proof.
  unfold confidence_vote, raises.
  by destruct (m_predict_confidence model input kwargs) as [p|e].
Qed.

Lemma flat_votes_filter self input members :
  flat_votes self input members
  = flat_votes self input
      (filter (fun km => raises_ValueError (m_predict_probability km.2 input km.1) = false)
              members).
Proof.
  unfold flat_votes. induction members as [|[kwargs model] members IH]; [done|].
  rewrite Result_mapM_cons. cbn [fst snd].
  destruct (raises_ValueError (m_predict_probability model input kwargs)) eqn:Hr.
  - rewrite filter_cons_False by (cbn; congruence).
    rewrite (probability_vote_skipped _ _ _ _ Hr). cbn [mbind Result_bind].
    rewrite <- IH. by destruct (mapM _ members).
  - rewrite filter_cons_True by done. rewrite Result_mapM_cons. cbn [fst snd].
    destruct (probability_vote self input kwargs model) as [[c|]|e]; try done.
    + cbn [mbind Result_bind] in *.
      destruct (mapM _ members), (mapM _ (filter _ members)); try done.
      cbn in *. congruence.
    + cbn [mbind Result_bind] in *.
      destruct (mapM _ members), (mapM _ (filter _ members)); try done.
Qed.

Lemma flat_confidences_filter self input members :
  flat_confidences self input members
  = flat_confidences self input
      (filter (fun km => raises (m_predict_confidence km.2 input km.1) = false)
              members).
Proof.
  unfold flat_confidences. induction members as [|[kwargs model] members IH]; [done|].
  rewrite Result_mapM_cons. cbn [fst snd].
  destruct (raises (m_predict_confidence model input kwargs)) eqn:Hr.
  - rewrite filter_cons_False by (cbn; congruence).
    rewrite (confidence_vote_skipped _ _ _ _ Hr). cbn [mbind Result_bind].
    rewrite <- IH. by destruct (mapM _ members).
  - rewrite filter_cons_True by done. rewrite Result_mapM_cons. cbn [fst snd].
    destruct (confidence_vote self input kwargs model) as [[c|]|e]; try done.
    + cbn [mbind Result_bind] in *.
      destruct (mapM _ members), (mapM _ (filter _ members)); try done.
      cbn in *. congruence.
    + cbn [mbind Result_bind] in *.
      destruct (mapM _ members), (mapM _ (filter _ members)); try done.
Qed.

Lemma filter_none {A} (P : A -> Prop) `{forall x, Decision (P x)} (l : list A) :
  Forall (fun x => ~ P x) l -> filter P l = [].
Proof.
  induction 1 as [|x l Hx _ IH]; [done|]. by rewrite filter_cons_False.
Qed.

End Skipped.



(** When no member of a classification fusion has a confidence, the mean is
    taken over no member at all. *)
Lemma predict_confidence_no_member :
  predict_confidence (iris_fusion ["deepnet/4"] [3]) no_input LAST_PREDICTION false
  = Raise ZeroDivisionError.
Proof. by vm_compute. Qed.

(** ** Confidences do not depend on the weights *)



Lemma Result_rel_eq {A} (r1 r2 : Result A) : Result_rel eq r1 r2 -> r1 = r2.
Proof. destruct r1, r2; cbn; try done; by intros ->. Qed.




Section Weights.
Context `{Collaborators}.
Implicit Types (self : Fusion) (input : input_data) (model : Member).





End Weights.

(** ** The unweighted mean of the confidences *)





Section Confidence.
Context `{Collaborators}.
Implicit Types (self : Fusion) (input : input_data).


End Confidence.


(** ** Sorting *)

Section Sorting.
Context {A : Type} (lt : A -> A -> bool).
Implicit Types (x y : A) (l : list A).

Lemma insert_by_Permutation x l : insert_by lt x l ≡ₚ x :: l.
Proof.
  induction l as [|y l IH]; [done|]. cbn.
  destruct (lt y x); [|done]. rewrite IH. apply Permutation_swap.
Qed.

Lemma sort_by_Permutation l : sort_by lt l ≡ₚ l.
Proof.
  induction l as [|x l IH]; [done|]. unfold sort_by in *. cbn [foldr].
  by rewrite insert_by_Permutation, IH.
Qed.

Hypothesis lt_asym : forall x y, lt x y = true -> lt y x = false.
Hypothesis le_trans : forall x y z, lt y x = false -> lt z y = false -> lt z x = false.

(** In the lemmas below a list is sorted when no element could move in
    front of an element before it. *)
Lemma insert_by_sorted x l :
  StronglySorted (fun a b => lt b a = false) l ->
  StronglySorted (fun a b => lt b a = false) (insert_by lt x l).
Proof.
  induction 1 as [|y l Hl IH Hy]; cbn.
  - repeat constructor.
  - destruct (lt y x) eqn:Hyx.
    + constructor; [done|].
      rewrite insert_by_Permutation. constructor; [|done].
      by apply lt_asym.
    + constructor; [by constructor|]. constructor; [done|].
      eapply Forall_impl; [exact Hy|]. intros z Hz. by eapply le_trans.
Qed.

Lemma sort_by_sorted l : StronglySorted (fun a b => lt b a = false) (sort_by lt l).
Proof.
  induction l as [|x l IH]; [constructor|]. unfold sort_by in *. cbn [foldr].
  by apply insert_by_sorted.
Qed.
End Sorting.

Lemma StronglySorted_weaken {A} (R S : A -> A -> Prop) l :
  (forall a b, R a b -> S a b) -> StronglySorted R l -> StronglySorted S l.
Proof.
  intros HRS. induction 1 as [|x l _ IH Hx]; constructor; [done|].
  eapply Forall_impl; [exact Hx | apply HRS].
Qed.


(** ** The order of [predict_operating] *)









(** ** [predict_operating] *)





Section Operating.
Context `{Collaborators}.
Implicit Types (self : Fusion) (input : input_data).

End Operating.


(** ** The tie-break of the standard path *)




(** Claim C6 fails on the standard path.  The fusion of [tree_member] alone
    gives the same probability to ["Iris-versicolor"] and to
    ["Iris-virginica"], and the categories of the objective field list
    ["Iris-virginica"] first.  [predict_operating], with a threshold that
    the positive class does not reach, predicts ["Iris-virginica"];
    [_predict] without operating point predicts ["Iris-versicolor"], the
    first of the two in the sorted class names. *)
Theorem standard_prediction_tie_is_lexical :
  let self := iris_fusion ["model/1"] [1] in
  predict_probability self no_input LAST_PREDICTION false = Ok (ProbabilityList tree_entries)
  /\ (category_rank iris_categories "Iris-virginica"
      < category_rank iris_categories "Iris-versicolor")%nat
  /\ fp_prediction <$> predict_operating self no_input LAST_PREDICTION
                         (Some (VDict (setosa_operating_point (9 # 10))))
     = Ok (VStr "Iris-virginica")
  /\ py_getitem (sorted_by_key (fun x => - cp_probability x) tree_entries) 0
     = Ok (CategoryProbability "Iris-versicolor" (250 # 625) None)
  /\ fp_prediction <$> _predict self no_input LAST_PREDICTION None []
     = Ok (VStr "Iris-versicolor").
Proof.
  intros self. split_and!; by vm_compute.
Qed.

(** ** [dump] and [dumps] delete the attribute [api] *)

Section WithoutApi.
Context `{Collaborators}.
Implicit Types (self : Fusion) (input : input_data).

Lemma instantiate_no_api self model :
  api self = None -> instantiate self model = Raise AttributeError.
Proof. intros Hapi. unfold instantiate, self_api. by rewrite Hapi. Qed.

Lemma split_votes_no_api self input strategy models_split :
  api self = None ->
  split_votes self input strategy models_split
  = match models_split with
    | [] => Ok []
    | _ :: _ => Raise AttributeError
    end.
Proof.
  intros Hapi. unfold split_votes. destruct models_split as [|model rest]; [done|].
  by rewrite Result_mapM_cons, instantiate_no_api.
Qed.

Lemma split_confidences_no_api self input strategy models_split :
  api self = None ->
  split_confidences self input strategy models_split
  = match models_split with
    | [] => Ok []
    | _ :: _ => Raise AttributeError
    end.
Proof.
  intros Hapi. unfold split_confidences. destruct models_split as [|model rest]; [done|].
  by rewrite Result_mapM_cons, instantiate_no_api.
Qed.

Lemma mapM_first_failure {A B} (f : A -> Result (list B)) l e :
  Forall (fun x => f x = Ok [] \/ f x = Raise e) l ->
  Exists (fun x => f x = Raise e) l ->
  mapM f l = Raise e.
Proof.
  induction 1 as [|x l [Hx | Hx] _ IH]; intros Hex.
  - by inversion Hex.
  - rewrite Result_mapM_cons, Hx. cbn.
    apply Exists_cons in Hex as [Hex | Hex]; [congruence|]. by rewrite IH.
  - by rewrite Result_mapM_cons, Hx.
Qed.

(** Without the attribute [api] no member can be instantiated: the
    prediction fails as soon as a batch has a member. *)
Lemma predict_without_api self input strategy compact :
  api self = None ->
  check_passes self input ->
  (exists models_split, models_split ∈ models_splits self /\ models_split <> []) ->
  predict_probability self input strategy compact = Raise AttributeError
  /\ predict_confidence self input strategy compact = Raise AttributeError.
Proof.
  intros Hapi Hcheck (models_split & Hin & Hne).
  unfold predict_probability, predict_confidence, collect_votes, collect_confidences.
  rewrite (check_passes_Ok _ _ Hcheck). cbn [mbind Result_bind].
  rewrite (mapM_first_failure (split_votes self input strategy) _ AttributeError),
          (mapM_first_failure (split_confidences self input strategy) _ AttributeError);
    [done | | | |].
  - apply Forall_forall. intros s _. rewrite split_confidences_no_api by done.
    destruct s; auto.
  - apply Exists_exists. exists models_split. split; [done|].
    rewrite split_confidences_no_api by done. by destruct models_split.
  - apply Forall_forall. intros s _. rewrite split_votes_no_api by done.
    destruct s; auto.
  - apply Exists_exists. exists models_split. split; [done|].
    rewrite split_votes_no_api by done. by destruct models_split.
Qed.
End WithoutApi.

Lemma del_api_attributes st self address d connection :
  dict_of st !! self = Some address ->
  dicts st !! address = Some d ->
  api d = Some connection ->
  exists st',
    del_api st address = (st', Ok ())
    /\ attributes st' self = Some (without_api d)
    /\ dicts st' !! address = Some (without_api d)
    /\ st' <> st.
Proof.
  intros Hobj Hdict Hapi. unfold del_api. rewrite Hdict, Hapi.
  eexists. split; [reflexivity|]. split_and!.
  - unfold attributes. cbn. rewrite Hobj. cbn. apply lookup_insert_eq.
  - cbn. apply lookup_insert_eq.
  - intros Heq. apply (f_equal (fun s => dicts s !! address)) in Heq.
    cbn in Heq. rewrite lookup_insert_eq, Hdict in Heq.
    injection Heq as Heq. apply (f_equal api) in Heq. cbn in Heq. congruence.
Qed.

Section Dump.
Context `{Collaborators}.
Context {Output : Type}.
Variable util_dump : Fusion -> option Output -> option Output -> Result unit.
Variable util_dumps : Fusion -> Result string.

(** Claim C10.  [dump] and [dumps] work on the attribute dictionary of the
    object itself.  On an object that has the attribute [api], each of them
    leaves a store in which the object has lost that attribute and kept the
    others; the serializer is given the dictionary without [api]; and a
    later [predict_probability] or [predict_confidence] on the object fails
    with [AttributeError] as soon as a batch has a member. *)
Theorem dump_deletes_api (st : Store) (self : positive) (d : Fusion)
    (connection : Api) (output cache_set : option Output) :
  attributes st self = Some d ->
  api d = Some connection ->
  let after_dump := Fusion_dump Output util_dump st self output cache_set in
  let after_dumps := Fusion_dumps util_dumps st self in
  (attributes after_dump.1 self = Some (without_api d)
   /\ after_dump.2 = util_dump (without_api d) output cache_set
   /\ after_dump.1 <> st)
  /\ (attributes after_dumps.1 self = Some (without_api d)
      /\ after_dumps.2 = (_ ← util_dumps (without_api d); Ok ())
      /\ after_dumps.1 <> st)
  /\ call_method after_dump.1 self self_api = Raise AttributeError
  /\ forall input strategy compact,
       check_passes d input ->
       (exists models_split, models_split ∈ models_splits d /\ models_split <> []) ->
       call_method after_dump.1 self
         (fun f => predict_probability f input strategy compact) = Raise AttributeError
       /\ call_method after_dumps.1 self
            (fun f => predict_probability f input strategy compact) = Raise AttributeError
       /\ call_method after_dump.1 self
            (fun f => predict_confidence f input strategy compact) = Raise AttributeError.
Proof.
  intros Hattr Hapi after_dump after_dumps.
  unfold attributes in Hattr.
  destruct (dict_of st !! self) as [address|] eqn:Hobj; [|done]. cbn in Hattr.
  destruct (del_api_attributes st self address d connection Hobj Hattr Hapi)
    as (st' & Hdel & Hattr' & Hdict' & Hne).
  assert (Hdump : after_dump = (st', util_dump (without_api d) output cache_set)).
  { unfold after_dump, Fusion_dump, vars, serialize. by rewrite Hobj, Hdel, Hdict'. }
  assert (Hdumps : after_dumps = (st', _ ← util_dumps (without_api d); Ok ())).
  { unfold after_dumps, Fusion_dumps, vars, serialize. by rewrite Hobj, Hdel, Hdict'. }
  rewrite Hdump, Hdumps. cbn [fst snd].
  split_and!; try done.
  - unfold call_method. by rewrite Hattr'.
  - intros input strategy compact Hcheck Hsplit. unfold call_method. rewrite Hattr'.
    destruct (predict_without_api (without_api d) input strategy compact)
      as [Hp Hc]; [done | exact Hcheck | exact Hsplit |].
    by rewrite Hp, Hc.
Qed.
End Dump.

Lemma dump_deletes_api_witness :
  let d := iris_fusion ["model/1"; "model/2"] [1; 2] in
  let after_dump := Fusion_dump string accept_dump one_fusion_store 1 None None in
  (attributes one_fusion_store 1 = Some d /\ api d = Some local_connection)
  /\ call_method one_fusion_store 1 self_api = Ok local_connection
  /\ after_dump.2 = Ok ()
  /\ call_method after_dump.1 1 self_api = Raise AttributeError
  /\ call_method after_dump.1 1
       (fun f => predict_probability f no_input LAST_PREDICTION false)
     = Raise AttributeError.
Proof.
  intros d after_dump.
  assert (Hattr : attributes one_fusion_store 1 = Some d) by (by vm_compute).
  split; [by split|].
  destruct (dump_deletes_api accept_dump accept_dumps one_fusion_store 1 d
              local_connection None None Hattr eq_refl)
    as ((_ & Hresult & _) & _ & Hgone & Hpredict).
  split_and!; [by vm_compute | exact Hresult | exact Hgone |].
  apply (Hpredict no_input LAST_PREDICTION false).
  - by left.
  - exists ["model/1"; "model/2"]. split; [by left | done].
Defined.

(** * Further properties of the code *)

(** ** The order of strings *)

Lemma ascii_compare_trans a b c :
  Ascii.compare a b = Lt -> Ascii.compare b c = Lt -> Ascii.compare a c = Lt.
Proof.
  unfold Ascii.compare. rewrite !N.compare_lt_iff. lia.
Qed.

Lemma ascii_compare_refl a : Ascii.compare a a = Eq.
Proof. unfold Ascii.compare. apply N.compare_refl. Qed.

Lemma string_compare_trans a : forall b c,
  String.compare a b = Lt -> String.compare b c = Lt -> String.compare a c = Lt.
Proof.
  induction a as [|x a IH]; intros [|y b] [|z c]; cbn; try done.
  destruct (Ascii.compare x y) eqn:Hxy; try done.
  - apply Ascii.compare_eq_iff in Hxy as ->.
    destruct (Ascii.compare y z); try done. apply IH.
  - destruct (Ascii.compare y z) eqn:Hyz; try done.
    + apply Ascii.compare_eq_iff in Hyz as <-. by rewrite Hxy.
    + by rewrite (ascii_compare_trans _ _ _ Hxy Hyz).
Qed.

Lemma string_ltb_asym a b : String.ltb a b = true -> String.ltb b a = false.
Proof.
  unfold String.ltb. rewrite (String.compare_antisym a b).
  by destruct (String.compare b a).
Qed.

Lemma string_ltb_leb a b : String.ltb b a = false <-> String.leb a b = true.
Proof.
  unfold String.ltb, String.leb. rewrite (String.compare_antisym a b).
  by destruct (String.compare b a).
Qed.

Lemma string_le_trans a b c :
  String.ltb b a = false -> String.ltb c b = false -> String.ltb c a = false.
Proof.
  unfold String.ltb. intros Hba Hcb.
  destruct (String.compare c a) eqn:Hca; try done.
  destruct (String.compare b a) eqn:Hb; try done.
  - apply String.compare_eq_iff in Hb as ->. by rewrite Hca in Hcb.
  - assert (String.compare a b = Lt) as Hab.
    { rewrite String.compare_antisym, Hb. done. }
    by rewrite (string_compare_trans _ _ _ Hca Hab) in Hcb.
Qed.

(** [sorted] on strings gives a sorted permutation. *)
Lemma sorted_strings_spec (l : list string) :
  sorted_strings l ≡ₚ l
  /\ StronglySorted (fun a b => String.leb a b = true) (sorted_strings l).
Proof.
  split; [apply sort_by_Permutation|].
  eapply StronglySorted_weaken; [|apply sort_by_sorted].
  - intros a b. apply string_ltb_leb.
  - apply string_ltb_asym.
  - apply string_le_trans.
Qed.

(** ** The objective field in [__init__] *)

(** Property X1.  When the summary of the objective field has
    categories, and neither bins nor counts, [objective_categories]
    lists the categories in the order of the summary and [class_names]
    is a permutation of them sorted in ascending order, without
    repetition if the categories have none; when the summary has bins or
    counts, [class_names] stays [None] whatever the categories. *)
Theorem init_objective_class_names (NUMERIC : string) (summary : field_summary)
    (optype : option string) :
  let attributes := init_objective NUMERIC summary optype in
  (forall l, bins summary = None -> counts summary = None ->
     categories summary = Some l ->
     oa_objective_categories attributes = Some l.*1
     /\ exists names,
          oa_class_names attributes = Some names
          /\ names ≡ₚ l.*1
          /\ StronglySorted (fun a b => String.leb a b = true) names
          /\ (NoDup l.*1 -> NoDup names))
  /\ (is_Some (bins summary) \/ is_Some (counts summary) ->
      oa_class_names attributes = None
      /\ oa_objective_categories attributes = None)
  /\ (oa_regression attributes = true <-> optype = Some NUMERIC).
Proof.
  intros attributes. unfold attributes, init_objective. split_and!.
  - intros l -> -> ->. cbn. split; [done|].
    destruct (sorted_strings_spec l.*1) as [Hperm Hsorted].
    exists (sorted_strings l.*1). split_and!; [done | done | done |].
    intros Hnodup. by rewrite Hperm.
  - intros [[l Hl] | [l Hl]].
    + by rewrite Hl.
    + rewrite Hl. by destruct (bins summary).
  - destruct (bins summary), (counts summary), (categories summary); cbn;
      apply bool_decide_eq_true.
Qed.

(** ** [rearrange_prediction]: round trip and mass *)

Lemma index_from_NoDup `{EqDecision A} (l : list A) (j : nat) (x : A) :
  NoDup l -> l !! j = Some x -> index_from x l 0 = Some j.
Proof.
  intros Hnodup Hj.
  destruct (index_from x l 0) as [j'|] eqn:Hi.
  - apply index_from_Some in Hi as (_ & Hj' & _). rewrite Nat.sub_0_r in Hj'.
    f_equal. by eapply NoDup_lookup.
  - apply index_from_None in Hi. destruct Hi. apply list_elem_of_lookup. eauto.
Qed.

Lemma index_from_shift `{EqDecision A} (x : A) (l : list A) (k : nat) :
  index_from x l (S k) = S <$> index_from x l k.
Proof.
  revert k. induction l as [|y l IH]; intros k; cbn; [done|].
  destruct (decide (y = x)); [done | apply IH].
Qed.

(** The value that the re-projection gives to a class. *)
Lemma rearrange_prediction_lookup origin destination prediction out i class_name :
  (length origin <= length prediction)%nat ->
  rearrange_prediction (Some origin) (Some destination) prediction = Ok out ->
  destination !! i = Some class_name ->
  out !! i = match index_from class_name origin 0 with
             | Some j => prediction !! j
             | None => Some 0
             end.
Proof.
  intros Hlen Hout Hi.
  destruct (rearrange_prediction_spec origin destination prediction Hlen)
    as (out' & Hout' & _ & Hspec).
  rewrite Hout in Hout'. injection Hout' as <-.
  destruct (Hspec i class_name Hi) as [Habsent Hpresent].
  destruct (index_from class_name origin 0) as [j|] eqn:Hj.
  - by apply Hpresent.
  - apply Habsent. by apply index_from_None in Hj.
Qed.

Lemma rearrange_class_head o origin x prediction :
  rearrange_class (Some (o :: origin)) (x :: prediction) o = Ok x.
Proof.
  unfold rearrange_class, py_index. cbn [index_from]. by rewrite decide_True.
Qed.

Lemma rearrange_class_tail o origin x prediction class_name :
  class_name <> o ->
  rearrange_class (Some (o :: origin)) (x :: prediction) class_name
  = rearrange_class (Some origin) prediction class_name.
Proof.
  intros Hne. unfold rearrange_class, py_index. cbn [index_from].
  rewrite decide_False by done. rewrite index_from_shift.
  by destruct (index_from class_name origin 0).
Qed.

Lemma Result_mapM_app_Ok {A B} (f : A -> Result B) l1 l2 k :
  mapM f (l1 ++ l2) = Ok k ->
  exists k1 k2, mapM f l1 = Ok k1 /\ mapM f l2 = Ok k2 /\ k = k1 ++ k2.
Proof.
  rewrite Result_mapM_app. destruct (mapM f l1) as [k1|]; [|done].
  destruct (mapM f l2) as [k2|]; [|done]. cbn. intros [= <-]. by exists k1, k2.
Qed.

Lemma py_sum_app l1 l2 : py_sum (l1 ++ l2) == py_sum l1 + py_sum l2.
Proof.
  induction l1 as [|x l1 IH]; cbn [app].
  - unfold py_sum at 2. cbn. lra.
  - rewrite !py_sum_cons, IH. lra.
Qed.

Lemma py_sum_Permutation l1 l2 : l1 ≡ₚ l2 -> py_sum l1 == py_sum l2.
Proof.
  induction 1 as [|x l1 l2 _ IH|x y l|l1 l2 l3 _ IH1 _ IH2].
  - reflexivity.
  - rewrite !py_sum_cons, IH. reflexivity.
  - rewrite !py_sum_cons. lra.
  - by rewrite IH1.
Qed.

Lemma py_sum_zeros n : py_sum (replicate n 0) == 0.
Proof.
  induction n as [|n IH]; [reflexivity|]. cbn [replicate]. rewrite py_sum_cons, IH. lra.
Qed.

(** The re-projection of a vector onto classes that include its own is
    the vector, reordered, with a 0 for every other class. *)
Lemma rearrange_prediction_Permutation prediction : forall origin destination,
  NoDup origin ->
  NoDup destination ->
  origin ⊆ destination ->
  length prediction = length origin ->
  exists out,
    rearrange_prediction (Some origin) (Some destination) prediction = Ok out
    /\ out ≡ₚ prediction ++ replicate (length destination - length origin) 0.
Proof.
  induction prediction as [|x prediction IH]; intros origin destination Ho Hd Hsub Hlen.
  - destruct origin; [|done]. exists (replicate (length destination) 0).
    split; [|by rewrite Nat.sub_0_r]. unfold rearrange_prediction.
    rewrite (Result_mapM_ext _ (fun _ => Ok 0)).
    + rewrite Result_mapM_pure. f_equal. clear.
      induction destination; cbn; [done | by f_equal].
    + intros c _. apply rearrange_class_absent. apply not_elem_of_nil.
  - destruct origin as [|o origin]; [done|].
    assert (o ∈ destination) as Hin by (apply Hsub; left).
    apply list_elem_of_split in Hin as (d1 & d2 & ->).
    apply NoDup_cons in Ho as [Hno Ho].
    assert (Hod : o ∉ d1 ++ d2).
    { apply NoDup_app in Hd as (_ & Hnot & Hd2). apply NoDup_cons in Hd2 as [? _].
      intros [Hi | Hi]%elem_of_app; [|done]. apply (Hnot o Hi). left. }
    assert (Hd' : NoDup (d1 ++ d2)).
    { apply NoDup_app in Hd as (Hd1 & Hnot & Hd2). apply NoDup_cons in Hd2 as [? ?].
      apply NoDup_app. split_and!; [done | | done].
      intros c Hc1 Hc2. apply (Hnot c Hc1). by right. }
    destruct (IH origin (d1 ++ d2)) as (rest & Hrest & Hperm); [done | done | | |].
    { intros c Hc. assert (c ∈ d1 ++ o :: d2) as Hc' by (apply Hsub; by right).
      rewrite elem_of_app, elem_of_cons in Hc'. rewrite elem_of_app.
      destruct Hc' as [? | [-> | ?]]; auto. done. }
    { cbn in Hlen. lia. }
    unfold rearrange_prediction in Hrest |- *.
    apply Result_mapM_app_Ok in Hrest as (r1 & r2 & Hr1 & Hr2 & ->).
    exists (r1 ++ x :: r2). split.
    + rewrite Result_mapM_app.
      rewrite (Result_mapM_ext _ (rearrange_class (Some origin) prediction) d1).
      2:{ intros c Hc. apply rearrange_class_tail. intros ->. apply Hod.
          apply elem_of_app. by left. }
      rewrite Hr1. cbn [mbind Result_bind]. rewrite Result_mapM_cons, rearrange_class_head.
      cbn [mbind Result_bind].
      rewrite (Result_mapM_ext _ (rearrange_class (Some origin) prediction) d2).
      2:{ intros c Hc. apply rearrange_class_tail. intros ->. apply Hod.
          apply elem_of_app. by right. }
      by rewrite Hr2.
    + rewrite <- Permutation_middle. cbn [app]. constructor. rewrite Hperm.
      rewrite !length_app. cbn [length].
      by replace (length d1 + S (length d2) - S (length origin))%nat
        with (length d1 + length d2 - length origin)%nat by lia.
Qed.

(** Property X2.  Re-projecting a vector onto a reordering of its own
    classes and back gives the vector again; re-projecting onto its own
    classes changes nothing. *)
Theorem rearrange_prediction_round_trip (origin destination : list string)
    (prediction : list Q) :
  NoDup origin ->
  NoDup destination ->
  destination ≡ₚ origin ->
  length prediction = length origin ->
  rearrange_prediction (Some origin) (Some origin) prediction = Ok prediction
  /\ exists out,
       rearrange_prediction (Some origin) (Some destination) prediction = Ok out
       /\ rearrange_prediction (Some destination) (Some origin) out = Ok prediction.
Proof.
  intros Ho Hd Hperm Hlen.
  assert (Hlen_d : length destination = length origin) by (by rewrite Hperm).
  assert (Hle : (length origin <= length prediction)%nat) by lia.
  split.
  - destruct (rearrange_prediction_spec origin origin prediction) as (out & Hout & Hl & _);
      [lia|].
    rewrite Hout. f_equal. apply list_eq. intros j.
    destruct (origin !! j) as [c|] eqn:Hc.
    + rewrite (rearrange_prediction_lookup _ _ _ _ j c Hle Hout Hc).
      by rewrite (index_from_NoDup _ _ _ Ho Hc).
    + apply lookup_ge_None in Hc. rewrite !lookup_ge_None_2; [done | lia | lia].
  - destruct (rearrange_prediction_spec origin destination prediction)
      as (out & Hout & Hl & _); [lia|].
    assert (Hle' : (length destination <= length out)%nat) by lia.
    destruct (rearrange_prediction_spec destination origin out)
      as (back & Hback & Hlb & _); [lia|].
    exists out. split; [done|]. rewrite Hback. f_equal.
    apply list_eq. intros j.
    destruct (origin !! j) as [c|] eqn:Hc.
    + rewrite (rearrange_prediction_lookup _ _ _ _ j c Hle' Hback Hc).
      assert (c ∈ destination) as Hin.
      { rewrite Hperm. apply list_elem_of_lookup. eauto. }
      apply list_elem_of_lookup in Hin as [i Hi].
      rewrite (index_from_NoDup _ _ _ Hd Hi).
      rewrite (rearrange_prediction_lookup _ _ _ _ i c Hle Hout Hi).
      by rewrite (index_from_NoDup _ _ _ Ho Hc).
    + apply lookup_ge_None in Hc. rewrite !lookup_ge_None_2; [done | lia | lia].
Qed.

(** Property X3.  When the classes of the member are distinct and all
    among the distinct classes of the destination, the re-projection
    keeps every value of the vector once and adds zeros: the total of
    the vector is unchanged. *)
Theorem rearrange_prediction_keeps_mass (origin destination : list string)
    (prediction : list Q) :
  NoDup origin ->
  NoDup destination ->
  origin ⊆ destination ->
  length prediction = length origin ->
  exists out,
    rearrange_prediction (Some origin) (Some destination) prediction = Ok out
    /\ out ≡ₚ prediction ++ replicate (length destination - length origin) 0
    /\ py_sum out == py_sum prediction.
Proof.
  intros Ho Hd Hsub Hlen.
  destruct (rearrange_prediction_Permutation prediction origin destination Ho Hd Hsub Hlen)
    as (out & Hout & Hperm).
  exists out. split_and!; [done | done |].
  rewrite (py_sum_Permutation _ _ Hperm), py_sum_app, py_sum_zeros. lra.
Qed.

(** ** [get_models_weight]: records with weights, and lists that are not
    uniform *)

Lemma subscript_record_entry id w :
  py_subscript (record_entry id w) "id" = Ok (VStr id)
  /\ py_subscript (record_entry id w) "weight" = Ok (VNum w).
Proof.
  unfold record_entry, py_subscript. split.
  - by rewrite lookup_insert_eq.
  - by rewrite lookup_insert_ne, lookup_singleton_eq.
Qed.

(** Property X4.  A declaration in which every entry is a record with an
    id and a weight is read back as the ids and the weights, in order. *)
Theorem get_models_weight_round_trip (entries : list (string * Q)) :
  entries <> [] ->
  get_models_weight ((fun entry => record_entry entry.1 entry.2) <$> entries)
  = Ok (VStr <$> entries.*1, VNum <$> entries.*2).
Proof.
  intros Hne.
  set (records := (fun entry : string * Q => record_entry entry.1 entry.2) <$> entries).
  assert (Hids : mapM (fun model => py_subscript model "id") records
                 = Ok (VStr <$> entries.*1)).
  { unfold records. rewrite Result_mapM_fmap.
    rewrite (Result_mapM_ext _ (fun entry : string * Q => Ok (VStr entry.1))).
    - rewrite Result_mapM_pure. by rewrite <- list_fmap_compose.
    - intros entry _. apply subscript_record_entry. }
  assert (Hws : mapM (fun model => py_subscript model "weight") records
                = Ok (VNum <$> entries.*2)).
  { unfold records. rewrite Result_mapM_fmap.
    rewrite (Result_mapM_ext _ (fun entry : string * Q => Ok (VNum entry.2))).
    - rewrite Result_mapM_pure. by rewrite <- list_fmap_compose.
    - intros entry _. apply subscript_record_entry. }
  unfold get_models_weight.
  assert (py_getitem records 0 = Ok (record_entry (hd (EmptyString, 0) entries).1
                                                  (hd (EmptyString, 0) entries).2)) as ->.
  { unfold records. by destruct entries. }
  cbn [mbind Result_bind]. change (is_dict (record_entry _ _)) with true.
  cbn [mbind Result_bind]. rewrite Hids. cbn [try_except mbind Result_bind].
  rewrite Hws. reflexivity.
Qed.

(** Property X5.  Only the first entry decides how the declaration is
    read.  An empty declaration raises [IndexError].  When the first
    entry is not a record, the whole list is returned as the ids, every
    weight being 1, whatever the other entries are.  When the first
    entry is a record, an entry that is not a record, met after records
    that all have an id, raises [TypeError]. *)
Theorem get_models_weight_first_entry (models_info : list pyval) :
  get_models_weight [] = Raise IndexError
  /\ (forall v rest, models_info = v :: rest -> is_dict v = false ->
        get_models_weight models_info
        = Ok (models_info, replicate (length models_info) (VNum 1)))
  /\ (forall d before v after,
        models_info = VDict d :: before ++ v :: after ->
        Forall (has_key "id") (VDict d :: before) ->
        is_dict v = false ->
        get_models_weight models_info = Raise TypeError).
Proof.
  split_and!.
  - reflexivity.
  - intros v rest -> Hv. unfold get_models_weight.
    cbn [py_getitem lookup list_lookup mbind Result_bind]. by rewrite Hv.
  - intros d before v after -> Hids Hv. unfold get_models_weight.
    cbn [py_getitem lookup list_lookup mbind Result_bind is_dict].
    assert (mapM (fun model => py_subscript model "id")
                 (VDict d :: before ++ v :: after) = Raise TypeError) as ->; [|done].
    change (VDict d :: before ++ v :: after) with ((VDict d :: before) ++ v :: after).
    rewrite Result_mapM_app.
    destruct (subscript_records_Ok "id" (VDict d :: before)) as [ids ->]; [|done|].
    { eapply Forall_impl; [exact Hids|]. by intros [| |?]. }
    cbn [mbind Result_bind]. rewrite Result_mapM_cons.
    by destruct v.
Qed.

(** ** [models_splits]: the limit and the number of batches *)

(** Property X6.  A limit of 0 makes the constructor fail with
    [ValueError]; a negative limit gives no batch at all, whatever the
    members. *)
Theorem make_models_splits_not_positive {A} (model_ids : list A) (m : Z) :
  (m = 0%Z -> make_models_splits model_ids (Some m) = Raise ValueError)
  /\ ((m < 0)%Z -> make_models_splits model_ids (Some m) = Ok []).
Proof.
  split.
  - by intros ->.
  - intros Hm. unfold make_models_splits, py_range.
    rewrite (proj2 (Z.eqb_neq m 0)) by lia.
    rewrite (proj2 (Z.ltb_ge 0 m)) by lia.
    cbn [mbind Result_bind]. by replace (Z.to_nat (0 - _)) with 0%nat by lia.
Qed.

Lemma length_range_up fuel : forall start stop step,
  (0 < step)%Z -> (stop - start <= Z.of_nat fuel)%Z ->
  length (range_up fuel start stop step)
  = Z.to_nat ((stop - start + step - 1) / step).
Proof.
  induction fuel as [|fuel IH]; intros start stop step Hstep Hfuel.
  - cbn. assert ((stop - start + step - 1) / step <= 0)%Z; [|lia].
    apply Z.lt_succ_r. apply Z.div_lt_upper_bound; lia.
  - cbn [range_up]. destruct (Z.ltb_spec start stop) as [Hlt | Hge].
    + cbn [length]. rewrite IH by lia.
      replace (stop - start + step - 1)%Z
        with (stop - (start + step) + step - 1 + 1 * step)%Z by lia.
      rewrite Z.div_add by lia.
      assert (0 <= (stop - (start + step) + step - 1) / step)%Z
        by (apply Z.div_pos; lia).
      lia.
    + cbn. assert ((stop - start + step - 1) / step <= 0)%Z; [|lia].
      apply Z.lt_succ_r. apply Z.div_lt_upper_bound; lia.
Qed.

(** Property X7.  For a positive limit [m] and [n] members there are
    [ceil(n / m)] batches.  A limit that is not below the number of
    members gives the single batch that no limit gives, unless there is
    no member: then there is no batch, while no limit gives one empty
    batch. *)
Theorem make_models_splits_count {A} (model_ids : list A) (m : Z) :
  (0 < m)%Z ->
  exists splits,
    make_models_splits model_ids (Some m) = Ok splits
    /\ Z.of_nat (length splits) = ((Z.of_nat (length model_ids) + m - 1) / m)%Z
    /\ (model_ids <> [] -> (Z.of_nat (length model_ids) <= m)%Z ->
        make_models_splits model_ids (Some m) = make_models_splits model_ids None)
    /\ (model_ids = [] ->
        splits = [] /\ make_models_splits model_ids None = Ok [[]]).
Proof.
  intros Hm. unfold make_models_splits, py_range.
  rewrite (proj2 (Z.eqb_neq m 0)) by lia.
  rewrite (proj2 (Z.ltb_lt 0 m)) by lia.
  cbn [mbind Result_bind]. rewrite Z.sub_0_r, Nat2Z.id.
  set (n := length model_ids).
  set (splits := map _ (range_up n 0 (Z.of_nat n) m)).
  assert (Hcount : Z.of_nat (length splits) = ((Z.of_nat n + m - 1) / m)%Z).
  { unfold splits. rewrite length_map, length_range_up by lia.
    rewrite Z.sub_0_r. apply Z2Nat.id. apply Z.div_pos; lia. }
  exists splits. split_and!; [done | done | |].
  - intros Hne Hle. f_equal.
    destruct (batches_from_spec model_ids m n Hm 0%Z) as (Hcat & _ & _); [lia | lia |].
    fold n in Hcount. unfold batches_from in Hcat. fold n splits in Hcat.
    assert (length splits = 1%nat) as Hone.
    { assert (0 < n)%nat by (unfold n; destruct model_ids; [done | cbn; lia]).
      assert (1 = (Z.of_nat n + m - 1) / m)%Z; [|lia].
      apply Z.div_unique with (r := (Z.of_nat n - 1)%Z); lia. }
    destruct splits as [|batch [|? ?]]; try done.
    cbn in Hcat. rewrite app_nil_r in Hcat. by rewrite Hcat.
  - intros ->. by split.
Qed.

(** ** The batches do not change the votes *)

Lemma Result_mapM_concat_Ok {A B} (f : A -> Result B) (ls : list (list A)) k :
  mapM f (concat ls) = Ok k ->
  exists ks, Forall2 (fun l k' => mapM f l = Ok k') ls ks /\ concat ks = k.
Proof.
  revert k. induction ls as [|l ls IH]; intros k; cbn [concat].
  - rewrite Result_mapM_nil. intros [= <-]. exists []. by split; [constructor|].
  - intros (k1 & k2 & Hk1 & Hk2 & ->)%Result_mapM_app_Ok.
    destruct (IH k2 Hk2) as (ks & Hks & <-).
    exists (k1 :: ks). split; [by constructor | done].
Qed.

Section Batching.
Context `{Collaborators}.
Implicit Types (self : Fusion) (input : input_data).

Lemma member_kwargs_uniform models_split strategy b :
  models_split <> [] ->
  Forall (fun model => takes_strategy model = b) models_split ->
  member_kwargs models_split strategy = if b then Some strategy else None.
Proof.
  intros Hne Hall. unfold member_kwargs.
  destruct (last models_split) as [model|] eqn:Hlast.
  - apply last_Some in Hlast as [l' ->].
    apply Forall_app in Hall as [_ Hmodel]. apply Forall_inv in Hmodel.
    cbv beta in Hmodel. unfold takes_strategy in Hmodel. by rewrite Hmodel.
  - by apply last_None in Hlast.
Qed.

(** With the members loaded and one kind of keyword arguments for all of
    them, the list of the members with their keyword arguments is the same
    for every way of cutting the ids into batches. *)
Lemma members_of_uniform self strategy b splits batches :
  Forall (fun model => takes_strategy model = b) (concat splits) ->
  Forall2 (fun models_split batch =>
             batch.1 = member_kwargs models_split strategy
             /\ mapM (instantiate self) models_split = Ok batch.2) splits batches ->
  exists members,
    mapM (instantiate self) (concat splits) = Ok members
    /\ members_of batches = pair (if b then Some strategy else None) <$> members.
Proof.
  intros Hall Hloaded. revert Hall.
  induction Hloaded as [|models_split [kwargs models] splits batches [Hkw Hload] _ IH];
    intros Hall.
  - by exists [].
  - cbn [concat] in Hall. apply Forall_app in Hall as [Hsplit Hall].
    destruct (IH Hall) as (members & Hmembers & Heq).
    cbn in Hkw, Hload. exists (models ++ members). split.
    + cbn [concat]. by rewrite Result_mapM_app, Hload, Hmembers.
    + unfold members_of in *. cbn [mbind list_bind fst snd]. rewrite Heq, fmap_app.
      f_equal. destruct models_split as [|model models_split].
      * rewrite Result_mapM_nil in Hload. by injection Hload as <-.
      * by rewrite Hkw, (member_kwargs_uniform _ _ b).
Qed.

(** Property X8.  Cutting the same members into other batches changes
    neither [predict_probability] nor [predict_confidence], provided
    that the members can be instantiated and that their ids are all of a
    type that gets the [missing_strategy] keyword, or all of a type that
    does not. *)
Theorem predictions_independent_of_batches self (splits : list (list string))
    input strategy compact batches (b : bool) :
  concat splits = concat (models_splits self) ->
  Forall (fun model => takes_strategy model = b) (concat (models_splits self)) ->
  loaded self strategy batches ->
  predict_probability (with_splits self splits) input strategy compact
  = predict_probability self input strategy compact
  /\ predict_confidence (with_splits self splits) input strategy compact
     = predict_confidence self input strategy compact.
Proof.
  intros Hconcat Hall Hloaded.
  destruct (members_of_uniform self strategy b _ _ Hall Hloaded)
    as (members & Hmembers & Heq).
  rewrite <- Hconcat in Hmembers, Hall.
  destruct (Result_mapM_concat_Ok _ _ _ Hmembers) as (ks & Hks & Hcat).
  set (batches' := zip_with (fun models_split models =>
                               (member_kwargs models_split strategy, models)) splits ks).
  assert (Hloaded' : loaded (with_splits self splits) strategy batches').
  { unfold loaded, batches'. cbn [models_splits with_splits].
    clear -Hks. induction Hks; cbn; constructor; auto. }
  destruct (members_of_uniform self strategy b splits batches' Hall Hloaded')
    as (members' & Hmembers' & Heq').
  rewrite Hmembers in Hmembers'. injection Hmembers' as <-.
  assert (Hvotes : collect_votes (with_splits self splits) input strategy
                   = collect_votes self input strategy).
  { rewrite (collect_votes_loaded _ _ _ _ Hloaded), (collect_votes_loaded _ _ _ _ Hloaded').
    by rewrite Heq, Heq'. }
  assert (Hconfidences : collect_confidences (with_splits self splits) input strategy
                         = collect_confidences self input strategy).
  { rewrite (collect_confidences_loaded _ _ _ _ Hloaded),
            (collect_confidences_loaded _ _ _ _ Hloaded').
    by rewrite Heq, Heq'. }
  split.
  - unfold predict_probability. by rewrite Hvotes.
  - unfold predict_confidence. by rewrite Hconfidences.
Qed.
End Batching.

(** ** Fusions in which no member contributes *)

Section NoContribution.
Context `{Collaborators}.
Implicit Types (self : Fusion) (input : input_data).

Lemma collect_votes_all_skipped self input strategy batches :
  loaded self strategy batches ->
  Forall (fun km => raises_ValueError (m_predict_probability km.2 input km.1) = true)
         (members_of batches) ->
  collect_votes self input strategy = Ok ([], []).
Proof.
  intros Hloaded Hall. rewrite (collect_votes_loaded _ _ _ _ Hloaded).
  rewrite flat_votes_filter, filter_none; [done|].
  eapply Forall_impl; [exact Hall|]. cbn. by intros km ->.
Qed.

Lemma collect_confidences_all_skipped self input strategy batches :
  loaded self strategy batches ->
  Forall (fun km => raises (m_predict_confidence km.2 input km.1) = true)
         (members_of batches) ->
  collect_confidences self input strategy = Ok ([], []).
Proof.
  intros Hloaded Hall. rewrite (collect_confidences_loaded _ _ _ _ Hloaded).
  rewrite flat_confidences_filter, filter_none; [done|].
  eapply Forall_impl; [exact Hall|]. cbn. by intros km ->.
Qed.

(** Property X9.  A regression fusion in which every member is skipped
    (or which has no member) predicts 0, without error:
    [predict_probability] returns the value 0, and [predict_confidence]
    the prediction 0 with the confidence 0. *)
Theorem regression_without_contribution self input strategy batches compact :
  regression self = true ->
  check_passes self input ->
  loaded self strategy batches ->
  (Forall (fun km => raises_ValueError (m_predict_probability km.2 input km.1) = true)
          (members_of batches) ->
   predict_probability self input strategy compact
   = Ok (if compact then ProbabilityCompact [0] else PredictionDict 0))
  /\ (Forall (fun km => raises (m_predict_confidence km.2 input km.1) = true)
             (members_of batches) ->
      predict_confidence self input strategy compact
      = Ok (if compact then ConfidenceCompact [0; 0] else ConfidenceDict 0 0)).
Proof.
  intros Hreg Hcheck Hloaded. split; intros Hall.
  - unfold predict_probability.
    rewrite (check_passes_Ok _ _ Hcheck),
            (collect_votes_all_skipped _ _ _ _ Hloaded Hall).
    cbn [mbind Result_bind]. by rewrite Hreg.
  - unfold predict_confidence.
    rewrite (check_passes_Ok _ _ Hcheck),
            (collect_confidences_all_skipped _ _ _ _ Hloaded Hall).
    cbn [mbind Result_bind]. by rewrite Hreg.
Qed.

(** Property X10.  In a classification fusion that has class names,
    [predict_confidence] raises [ZeroDivisionError] when no member gives
    a confidence: the failures of the members are swallowed and the mean
    is taken over no member.  With an empty list of class names the
    result is empty. *)
Theorem classification_confidence_without_contribution self input strategy batches
    compact (names : list string) :
  regression self = false ->
  class_names self = Some names ->
  check_passes self input ->
  loaded self strategy batches ->
  Forall (fun km => raises (m_predict_confidence km.2 input km.1) = true)
         (members_of batches) ->
  (names <> [] ->
   predict_confidence self input strategy compact = Raise ZeroDivisionError)
  /\ (names = [] ->
      predict_confidence self input strategy compact
      = Ok (if compact then ConfidenceCompact [] else ConfidenceList [])).
Proof.
  intros Hreg Hnames Hcheck Hloaded Hall.
  assert (Hstart : predict_confidence self input strategy compact
                   = (output ← _combine_confidences self [];
                      if compact then Ok (ConfidenceCompact output)
                      else names ← iter_class_names self;
                           Ok (ConfidenceList (zip_with CategoryConfidence names output)))).
  { unfold predict_confidence.
    rewrite (check_passes_Ok _ _ Hcheck),
            (collect_confidences_all_skipped _ _ _ _ Hloaded Hall).
    cbn [mbind Result_bind]. by rewrite Hreg. }
  rewrite Hstart. unfold _combine_confidences, iter_class_names. rewrite Hnames.
  cbn [mbind Result_bind]. split.
  - intros Hne. destruct names as [|class_name names]; [done|]. reflexivity.
  - intros ->. by destruct compact.
Qed.
End NoContribution.

(** ** Regression: the prediction and the confidence of [predict_confidence] *)


Section RegressionConfidence.
Context `{Collaborators}.
Implicit Types (self : Fusion) (input : input_data).



End RegressionConfidence.

(** ** The standard path of [_predict] *)



Section StandardPath.
Context `{Collaborators}.
Implicit Types (self : Fusion) (input : input_data).

End StandardPath.

(** ** Operating points *)

Lemma default_operating_point_idem self operating_point :
  default_operating_point self (default_operating_point self operating_point)
  = default_operating_point self operating_point.
Proof.
  unfold default_operating_point.
  destruct operating_point as [v|]; [done|].
  destruct (operation_settings self) as [settings|]; [|done].
  by destruct (settings !! "operating_point").
Qed.

Section OperatingPoint.
Context `{Collaborators}.
Implicit Types (self : Fusion) (input : input_data).

Lemma predict_operating_default self input strategy operating_point :
  predict_operating self input strategy (default_operating_point self operating_point)
  = predict_operating self input strategy operating_point.
Proof. unfold predict_operating. by rewrite default_operating_point_idem. Qed.

(** Every result of [predict_operating] is a record of
    [predict_probability] with its category renamed: it has no
    ["unused_fields"] key. *)
Lemma predict_operating_renamed self input strategy operating_point r :
  predict_operating self input strategy operating_point = Ok r ->
  exists entry, r = rename_category entry.
Proof.
  unfold predict_operating.
  destruct (default_operating_point self operating_point) as [[| |d]|]; try done.
  cbn [mbind Result_bind].
  destruct (parse_operating_point _ _ _ _) as [[[kind threshold] positive_class]|];
    [|done].
  cbn [mbind Result_bind].
  destruct (predict_probability self input strategy false) as [predictions|]; [|done].
  cbn [mbind Result_bind].
  destruct (class_names self) as [names|]; [|done]. cbn [mbind Result_bind].
  destruct (py_index positive_class names) as [position|]; [|done].
  cbn [mbind Result_bind].
  destruct predictions as [|predictions|]; try done. cbn [mbind Result_bind].
  destruct (py_getitem predictions position) as [entry|]; [|done].
  cbn [mbind Result_bind].
  destruct (entry_metric entry kind) as [metric|]; [|done]. cbn [mbind Result_bind].
  destruct (Qltb threshold metric).
  - intros [= <-]. by exists entry.
  - destruct (sort_by_cmp _ predictions) as [sorted|]; [|done]. cbn [mbind Result_bind].
    destruct (py_getitem (take 2 sorted) 0) as [first|]; [|done].
    cbn [mbind Result_bind].
    destruct (bool_decide (cp_category first = positive_class)).
    + destruct (py_getitem (take 2 sorted) 1) as [second|]; [|done].
      intros [= <-]. by exists second.
    + intros [= <-]. by exists first.
Qed.

(** Property X13.  When an operating point is in force, given as
    argument or found in [operation_settings], [_predict] raises
    [ValueError] on a regression fusion, before any member is used; on a
    classification fusion it is [predict_operating], so that the unused
    fields that it was given are never part of the result. *)
Theorem predict_with_operating_point self input strategy operating_point
    (unused_fields : list string) :
  truthy (default_operating_point self operating_point) = true ->
  (regression self = true ->
   _predict self input strategy operating_point unused_fields = Raise ValueError)
  /\ (regression self = false ->
      _predict self input strategy operating_point unused_fields
      = predict_operating self input strategy operating_point
      /\ forall r, _predict self input strategy operating_point unused_fields = Ok r ->
           fp_unused_fields r = None).
Proof.
  intros Hop. unfold _predict. rewrite Hop. split.
  - by intros ->.
  - intros ->. rewrite predict_operating_default. split; [done|].
    intros r (entry & ->)%predict_operating_renamed. reflexivity.
Qed.

(** Property X14.  The kind of operating point that the caller gives is
    not read: [predict_operating] sets it to ["probability"] before
    anything else. *)
Theorem predict_operating_kind_forced self input strategy (d : gmap string pyval)
    (kind : pyval) :
  predict_operating self input strategy (Some (VDict (<["kind" := kind]> d)))
  = predict_operating self input strategy (Some (VDict d)).
Proof.
  unfold predict_operating. cbn [default_operating_point mbind Result_bind].
  by rewrite insert_insert_eq.
Qed.
End OperatingPoint.

(** ** [dump] again, other objects, and the reload from a cache *)

Lemma del_api_other st address d connection other :
  dicts st !! address = Some d ->
  api d = Some connection ->
  (del_api st address).2 = Ok ()
  /\ dict_of (del_api st address).1 = dict_of st
  /\ dicts (del_api st address).1 !! address = Some (without_api d)
  /\ (other <> address ->
      dicts (del_api st address).1 !! other = dicts st !! other).
Proof.
  intros Hd Hapi. unfold del_api. rewrite Hd, Hapi. cbn.
  split_and!; [done | done | apply lookup_insert_eq |].
  intros Hne. by apply lookup_insert_ne.
Qed.

Section DumpAgain.
Context {Output : Type}.
Variable util_dump : Fusion -> option Output -> option Output -> Result unit.
Variable util_dumps : Fusion -> Result string.

Lemma Fusion_dump_store st self address d connection output cache_set :
  dict_of st !! self = Some address ->
  dicts st !! address = Some d ->
  api d = Some connection ->
  (Fusion_dump Output util_dump st self output cache_set).1 = (del_api st address).1
  /\ (Fusion_dumps util_dumps st self).1 = (del_api st address).1.
Proof.
  intros Hobj Hd Hapi. unfold Fusion_dump, Fusion_dumps, vars. rewrite Hobj.
  destruct (del_api_other st address d connection address Hd Hapi) as (Hok & _).
  destruct (del_api st address) as [st' r]. cbn in Hok. by rewrite Hok.
Qed.

(** Property X15.  After [dump] on an object that had the attribute
    [api], a second [dump], or a [dumps], raises [KeyError] and changes
    nothing.  An object whose attribute dictionary is another dictionary
    keeps all its attributes; an object that shares the dictionary loses
    [api] too. *)
Theorem dump_again (st : Store) (self : positive) (d : Fusion) (connection : Api)
    (output cache_set : option Output) :
  attributes st self = Some d ->
  api d = Some connection ->
  let st1 := (Fusion_dump Output util_dump st self output cache_set).1 in
  Fusion_dump Output util_dump st1 self output cache_set = (st1, Raise KeyError)
  /\ Fusion_dumps util_dumps st1 self = (st1, Raise KeyError)
  /\ (forall other, dict_of st !! other <> dict_of st !! self ->
        attributes st1 other = attributes st other)
  /\ (forall other, dict_of st !! other = dict_of st !! self ->
        attributes st1 other = Some (without_api d)).
Proof.
  intros Hattr Hapi st1. unfold attributes in Hattr.
  destruct (dict_of st !! self) as [address|] eqn:Hobj; [|done]. cbn in Hattr.
  destruct (Fusion_dump_store st self address d connection output cache_set
              Hobj Hattr Hapi) as [Hst1 _].
  fold st1 in Hst1.
  assert (Hframe : forall other,
            dict_of st1 = dict_of st
            /\ dicts st1 !! address = Some (without_api d)
            /\ (other <> address -> dicts st1 !! other = dicts st !! other)).
  { intros other. rewrite Hst1.
    by destruct (del_api_other st address d connection other Hattr Hapi)
      as (_ & ? & ? & ?). }
  destruct (Hframe address) as (Hobjs & Hgone & _).
  split_and!.
  - unfold Fusion_dump, vars, del_api. by rewrite Hobjs, Hobj, Hgone.
  - unfold Fusion_dumps, vars, del_api. by rewrite Hobjs, Hobj, Hgone.
  - intros other Hother. unfold attributes. rewrite Hobjs.
    destruct (dict_of st !! other) as [address'|]; [|done]. cbn.
    destruct (Hframe address') as (_ & _ & Hsame). apply Hsame. congruence.
  - intros other Hother. unfold attributes. rewrite Hobjs, Hother. by cbn.
Qed.
End DumpAgain.

Section Reload.
Context `{Collaborators}.
Context {Output : Type}.
Variable util_dump : Fusion -> option Output -> option Output -> Result unit.

End Reload.

(** ** Instances of the further properties *)

Lemma init_objective_class_names_witness :
  let attributes := init_objective "numeric" iris_summary (Some "categorical") in
  (bins iris_summary = None /\ counts iris_summary = None)
  /\ oa_objective_categories attributes = Some iris_categories
  /\ (exists names,
        oa_class_names attributes = Some names
        /\ names ≡ₚ iris_categories
        /\ StronglySorted (fun a b => String.leb a b = true) names)
  /\ oa_regression attributes = false.
Proof.
  intros attributes. split; [by split|].
  destruct (init_objective_class_names "numeric" iris_summary (Some "categorical"))
    as (Hcategories & _ & Hregression).
  destruct (Hcategories _ eq_refl eq_refl eq_refl)
    as (Hraw & names & Hnames & Hperm & Hsorted & _).
  split_and!; [exact Hraw | by exists names |].
  destruct (oa_regression (init_objective "numeric" iris_summary (Some "categorical")));
    [|done].
  by destruct Hregression as [Himp _]; specialize (Himp eq_refl).
Defined.

Lemma rearrange_prediction_round_trip_witness :
  let origin := ["a"; "b"; "c"] in
  let destination := ["c"; "a"; "b"] in
  let prediction := [1 # 2; 1 # 3; 1 # 6] in
  (NoDup origin /\ NoDup destination /\ destination ≡ₚ origin
   /\ length prediction = length origin)
  /\ rearrange_prediction (Some origin) (Some destination) prediction
     = Ok [1 # 6; 1 # 2; 1 # 3]
  /\ rearrange_prediction (Some destination) (Some origin) [1 # 6; 1 # 2; 1 # 3]
     = Ok prediction.
Proof.
  intros origin destination prediction.
  assert (Horigin : NoDup origin).
  { refine (bool_decide_unpack (NoDup origin) _). by vm_compute. }
  assert (Hdestination : NoDup destination).
  { refine (bool_decide_unpack (NoDup destination) _). by vm_compute. }
  assert (Hperm : destination ≡ₚ origin).
  { apply (Permutation_cons_append ["a"; "b"] "c"). }
  split; [by split_and!|].
  destruct (rearrange_prediction_round_trip origin destination prediction
              Horigin Hdestination Hperm eq_refl) as (_ & out & Hthere & Hback).
  assert (Hout : out = [1 # 6; 1 # 2; 1 # 3]).
  { assert (Hcomputed : rearrange_prediction (Some origin) (Some destination) prediction
                        = Ok [1 # 6; 1 # 2; 1 # 3]) by (by vm_compute).
    rewrite Hthere in Hcomputed. by injection Hcomputed. }
  rewrite <- Hout. by split.
Defined.

Lemma rearrange_prediction_keeps_mass_witness :
  let origin := ["Iris-setosa"; "Iris-virginica"] in
  let prediction := [3 # 4; 1 # 4] in
  (NoDup origin /\ NoDup iris_classes /\ origin ⊆ iris_classes
   /\ length prediction = length origin)
  /\ exists out,
       rearrange_prediction (Some origin) (Some iris_classes) prediction = Ok out
       /\ py_sum out == 1.
Proof.
  intros origin prediction.
  assert (Horigin : NoDup origin).
  { refine (bool_decide_unpack (NoDup origin) _). by vm_compute. }
  assert (Hdestination : NoDup iris_classes).
  { refine (bool_decide_unpack (NoDup iris_classes) _). by vm_compute. }
  assert (Hsub : origin ⊆ iris_classes).
  { refine (bool_decide_unpack (origin ⊆ iris_classes) _). by vm_compute. }
  split; [by split_and!|].
  destruct (rearrange_prediction_keeps_mass origin iris_classes prediction
              Horigin Hdestination Hsub eq_refl) as (out & Hout & _ & Hsum).
  exists out. split; [exact Hout|].
  rewrite Hsum. by vm_compute.
Defined.

Lemma get_models_weight_round_trip_witness :
  let entries := [("model/1", 1); ("model/2", 2)] in
  entries <> []
  /\ get_models_weight [record_entry "model/1" 1; record_entry "model/2" 2]
     = Ok ([VStr "model/1"; VStr "model/2"], [VNum 1; VNum 2]).
Proof.
  intros entries.
  assert (Hentries : entries <> []) by done.
  split; [exact Hentries|].
  exact (get_models_weight_round_trip entries Hentries).
Defined.

Lemma get_models_weight_first_entry_witness :
  let models_info := [VStr "model/1"; VStr "model/2"] in
  is_dict (VStr "model/1") = false
  /\ get_models_weight models_info = Ok (models_info, [VNum 1; VNum 1]).
Proof.
  intros models_info. split; [done|].
  destruct (get_models_weight_first_entry models_info) as (_ & Hids & _).
  exact (Hids (VStr "model/1") [VStr "model/2"] eq_refl eq_refl).
Defined.

Lemma make_models_splits_not_positive_witness :
  make_models_splits five_members (Some 0%Z) = Raise ValueError
  /\ ((-2 < 0)%Z /\ make_models_splits five_members (Some (-2)%Z) = Ok []).
Proof.
  split.
  - destruct (make_models_splits_not_positive five_members 0) as [Hzero _].
    by apply Hzero.
  - assert (Hneg : (-2 < 0)%Z) by lia.
    split; [exact Hneg|].
    destruct (make_models_splits_not_positive five_members (-2)) as [_ Hnegative].
    by apply Hnegative.
Defined.

Lemma make_models_splits_count_witness :
  (0 < 2)%Z
  /\ exists splits,
       make_models_splits five_members (Some 2%Z) = Ok splits
       /\ length splits = 3%nat.
Proof.
  assert (Hpos : (0 < 2)%Z) by lia.
  split; [exact Hpos|].
  destruct (make_models_splits_count five_members 2 Hpos)
    as (splits & Hsplits & Hlen & _).
  exists splits. split; [exact Hsplits|].
  apply Nat2Z.inj. rewrite Hlen. by vm_compute.
Defined.

Lemma predictions_independent_of_batches_witness :
  let self := iris_fusion ["model/1"; "model/2"] [1; 2] in
  let splits := [["model/1"]; ["model/2"]] in
  let batches := [(Some LAST_PREDICTION, [tree_member; two_class_member])] in
  (concat splits = concat (models_splits self)
   /\ Forall (fun model => takes_strategy model = true) (concat (models_splits self))
   /\ loaded self LAST_PREDICTION batches)
  /\ predict_probability (with_splits self splits) no_input LAST_PREDICTION false
     = predict_probability self no_input LAST_PREDICTION false
  /\ predict_confidence (with_splits self splits) no_input LAST_PREDICTION false
     = predict_confidence self no_input LAST_PREDICTION false.
Proof.
  intros self splits batches.
  assert (Htypes : Forall (fun model => takes_strategy model = true)
                          (concat (models_splits self))).
  { repeat constructor. }
  assert (Hloaded : loaded self LAST_PREDICTION batches).
  { constructor; [|constructor]. split; by vm_compute. }
  split; [by split_and!|].
  exact (predictions_independent_of_batches self splits no_input LAST_PREDICTION false
           batches true eq_refl Htypes Hloaded).
Defined.

Lemma regression_without_contribution_witness :
  let self := numeric_fusion ["logisticregression/3"] [1] in
  let batches := [(None, [rejecting_member])] in
  (regression self = true
   /\ check_passes self no_input
   /\ loaded self LAST_PREDICTION batches
   /\ Forall (fun km => raises_ValueError (m_predict_probability km.2 no_input km.1) = true)
             (members_of batches))
  /\ predict_probability self no_input LAST_PREDICTION false = Ok (PredictionDict 0).
Proof.
  intros self batches.
  assert (Hcheck : check_passes self no_input) by (by left).
  assert (Hloaded : loaded self LAST_PREDICTION batches).
  { constructor; [|constructor]. split; by vm_compute. }
  assert (Hfail : Forall (fun km => raises_ValueError
                                      (m_predict_probability km.2 no_input km.1) = true)
                         (members_of batches)).
  { repeat constructor. }
  split; [by split_and!|].
  destruct (regression_without_contribution self no_input LAST_PREDICTION batches false
              eq_refl Hcheck Hloaded) as [Hzero _].
  exact (Hzero Hfail).
Defined.

Lemma classification_confidence_without_contribution_witness :
  let self := iris_fusion ["logisticregression/3"] [1] in
  let batches := [(None, [rejecting_member])] in
  (regression self = false
   /\ class_names self = Some iris_classes
   /\ check_passes self no_input
   /\ loaded self LAST_PREDICTION batches
   /\ Forall (fun km => raises (m_predict_confidence km.2 no_input km.1) = true)
             (members_of batches)
   /\ iris_classes <> [])
  /\ predict_confidence self no_input LAST_PREDICTION false = Raise ZeroDivisionError.
Proof.
  intros self batches.
  assert (Hcheck : check_passes self no_input) by (by left).
  assert (Hloaded : loaded self LAST_PREDICTION batches).
  { constructor; [|constructor]. split; by vm_compute. }
  assert (Hfail : Forall (fun km => raises (m_predict_confidence km.2 no_input km.1) = true)
                         (members_of batches)).
  { repeat constructor. }
  assert (Hnames : iris_classes <> []) by (by vm_compute).
  split; [by split_and!|].
  destruct (classification_confidence_without_contribution self no_input LAST_PREDICTION
              batches false iris_classes eq_refl eq_refl Hcheck Hloaded Hfail)
    as [Hraise _].
  exact (Hraise Hnames).
Defined.



Lemma predict_with_operating_point_witness :
  let self := iris_fusion ["model/1"] [1] in
  let operating_point := Some (VDict (setosa_operating_point (1 # 2))) in
  truthy (default_operating_point self operating_point) = true
  /\ regression self = false
  /\ _predict self no_input LAST_PREDICTION operating_point ["petal width"]
     = predict_operating self no_input LAST_PREDICTION operating_point.
Proof.
  intros self operating_point.
  assert (Htruthy : truthy (default_operating_point self operating_point) = true)
    by (by vm_compute).
  split_and!; [exact Htruthy | done |].
  destruct (predict_with_operating_point self no_input LAST_PREDICTION operating_point
              ["petal width"] Htruthy) as [_ Hclassification].
  by destruct (Hclassification eq_refl) as [Hsame _].
Defined.

Lemma dump_again_witness :
  let d := iris_fusion ["model/1"; "model/2"] [1; 2] in
  let st1 := (Fusion_dump string accept_dump shared_store 1 None None).1 in
  (attributes shared_store 1 = Some d /\ api d = Some local_connection)
  /\ Fusion_dump string accept_dump st1 1 None None = (st1, Raise KeyError)
  /\ attributes st1 2 = Some (without_api d)
  /\ attributes st1 3 = Some (numeric_fusion ["model/6"] [1]).
Proof.
  intros d st1.
  assert (Hattr : attributes shared_store 1 = Some d) by (by vm_compute).
  split; [by split|].
  destruct (dump_again accept_dump accept_dumps shared_store 1 d local_connection
              None None Hattr eq_refl) as (Hagain & _ & Hframe & Hshared).
  split_and!; [exact Hagain | by apply Hshared | by rewrite Hframe].
Defined.

